(** * cachai-demo: the JSON exporter [scripts/export_data.py]

    A shallow embedding of the exporter and the properties its
    specification states about it.

    Modelling conventions.
    - A Python [str] is a [string]; each [ascii] stands for one code point
      below 256 (Latin-1, enough for Spanish text).  [str.lower] is modelled
      on that range.
    - A SQL value that the script handles when it is [None] is an [option];
      a column the script dereferences unconditionally ([voto.lower()],
      [len(titulo)]) is taken NOT NULL.
    - A query is a list comprehension over the tables in storage order;
      [ORDER BY] is a stable sort, [LIMIT n] is [firstn n], [GROUP BY] visits
      the groups in ascending key order, the way SQLite's sorter does.
    - A Python [dict] is an association list in insertion order; [d[k]] on a
      missing key raises [KeyError].
    - [json.loads] and [json.dumps] belong to Python's library: they are
      parameters of the model.
    - Rows that [ORDER BY] leaves tied come in the order of the stable
      sort; SQLite may return them in another order.
    - The only stops of a run that are modelled are a missing dictionary
      key and a payload that does not parse; a NULL in a NOT NULL column
      above, a failure of the store or of the disk are outside the model. *)

From Stdlib Require Import List String Ascii Bool Arith ZArith NArith Lia Permutation.
From Stdlib Require Import QArith_base Sorted.
Import ListNotations.
Close Scope Q_scope.
Local Open Scope string_scope.
Local Open Scope list_scope.

(** ** Python primitives *)

Module Py.

(** [str.lower] on code points below 256: A-Z and the Latin-1 capitals
    U+00C0..U+00DE except the multiplication sign U+00D7. *)
Definition lower_char (c : ascii) : ascii :=
  let n := N_of_ascii c in
  if ((65 <=? n) && (n <=? 90))%N
     || ((192 <=? n) && (n <=? 222) && negb (n =? 215))%N
  then ascii_of_N (n + 32)
  else c.

Fixpoint lower (s : string) : string :=
  match s with
  | EmptyString => EmptyString
  | String c s' => String (lower_char c) (lower s')
  end.

(** [s.replace(old, new)] for one-character [old] and [new]. *)
Fixpoint replace1 (old new : ascii) (s : string) : string :=
  match s with
  | EmptyString => EmptyString
  | String c s' =>
      String (if Ascii.eqb c old then new else c) (replace1 old new s')
  end.

(** [needle in hay] on strings. *)
Fixpoint contains (needle hay : string) : bool :=
  if prefix needle hay then true
  else match hay with
       | EmptyString => false
       | String _ hay' => contains needle hay'
       end.

(** [s[:n]] *)
Fixpoint take (n : nat) (s : string) : string :=
  match n, s with
  | S n', String c s' => String c (take n' s')
  | _, _ => EmptyString
  end.

(** [o or d] *)
Definition or_else (o : option string) (d : string) : string :=
  match o with
  | Some (String c s) => String c s
  | _ => d
  end.

(** Exceptions the script can meet. *)
Inductive exn : Type :=
| KeyError
| JSONDecodeError.

Inductive result (A : Type) : Type :=
| Ok (a : A)
| Raise (e : exn).
Arguments Ok {A} a.
Arguments Raise {A} e.

Definition bind {A B} (m : result A) (k : A -> result B) : result B :=
  match m with
  | Ok a => k a
  | Raise e => Raise e
  end.

(** A [for] loop whose body may raise. *)
Fixpoint for_each {S X} (body : S -> X -> result S) (xs : list X) (s : S)
  : result S :=
  match xs with
  | [] => Ok s
  | x :: xs' => bind (body s x) (for_each body xs')
  end.

Fixpoint map_m {X Y} (f : X -> result Y) (xs : list X) : result (list Y) :=
  match xs with
  | [] => Ok []
  | x :: xs' =>
      bind (f x) (fun y => bind (map_m f xs') (fun ys => Ok (y :: ys)))
  end.

(** *** Dictionaries, in insertion order *)
Section Dict.
Context {K V : Type} (K_dec : forall x y : K, {x = y} + {x <> y}).

Definition dict := list (K * V).

Fixpoint get (k : K) (d : dict) : option V :=
  match d with
  | [] => None
  | (k', v) :: d' => if K_dec k k' then Some v else get k d'
  end.

(** [k in d] *)
Definition mem (k : K) (d : dict) : bool :=
  match get k d with Some _ => true | None => false end.

(** [d[k]] *)
Definition getitem (k : K) (d : dict) : result V :=
  match get k d with Some v => Ok v | None => Raise KeyError end.

(** [d[k] = v]: an existing key keeps its position, a new one goes last. *)
Fixpoint set (k : K) (v : V) (d : dict) : dict :=
  match d with
  | [] => [(k, v)]
  | (k', v') :: d' =>
      if K_dec k k' then (k', v) :: d' else (k', v') :: set k v d'
  end.

Definition keys (d : dict) : list K := map fst d.
Definition values (d : dict) : list V := map snd d.
End Dict.

End Py.

Notation "x <- m ;; k" := (Py.bind m (fun x => k))
  (at level 61, m at next level, right associativity).

(** ** Query helpers *)

Module Sql.

Section Sort.
Context {A : Type} (le : A -> A -> bool).

Fixpoint insert (x : A) (l : list A) : list A :=
  match l with
  | [] => [x]
  | y :: l' => if le x y then x :: y :: l' else y :: insert x l'
  end.

(** [ORDER BY]: rows that compare equal keep their relative order. *)
Fixpoint order_by (l : list A) : list A :=
  match l with
  | [] => []
  | x :: l' => insert x (order_by l')
  end.
End Sort.

Section Distinct.
Context {A : Type} (A_dec : forall x y : A, {x = y} + {x <> y}).

(** [SELECT DISTINCT]: the first copy of each row is kept. *)
Fixpoint distinct_from (seen : list A) (l : list A) : list A :=
  match l with
  | [] => []
  | x :: l' =>
      if in_dec A_dec x seen then distinct_from seen l'
      else x :: distinct_from (x :: seen) l'
  end.

Definition distinct (l : list A) : list A := distinct_from [] l.
End Distinct.

Definition limit {A} (n : nat) (l : list A) : list A := firstn n l.

(** Text comparison, BINARY collation. *)
Definition text_le (a b : string) : bool := String.leb a b.
Definition text_ge (a b : string) : bool := String.leb b a.

End Sql.

(** ** The store: the tables of [parlamento.db] the script reads *)

Definition mp_uid_t := Z.
Definition bill_id_t := string.

Record ParlamentarioRow := {
  pr_mp_uid : mp_uid_t;
  pr_nombre_completo : string;
  pr_partido_militante_actual_id : option Z;
  pr_url_foto : option string;
  pr_profesion : option string
}.

Record PartidoRow := {
  pa_partido_id : Z;
  pa_nombre_partido : option string;
  pa_sigla : option string
}.

Record VotoRow := {
  vp_mp_uid : mp_uid_t;
  vp_sesion_votacion_id : Z;
  vp_voto : string
}.

Record SesionRow := {
  sv_sesion_votacion_id : Z;
  sv_bill_id : bill_id_t;
  sv_fecha : string
}.

Record BillRow := {
  br_bill_id : bill_id_t;
  br_titulo : string;
  br_resumen : option string;
  br_fecha_ingreso : string;
  br_etapa : option string;
  br_resultado_final : option string;
  br_iniciativa : option string;
  br_origen : option string
}.

Record MateriaRow := {
  ma_materia_id : Z;
  ma_nombre : string
}.

Record BillMateriaRow := {
  bm_bill_id : bill_id_t;
  bm_materia_id : Z
}.

Record EmbeddingRow := {
  em_bill_id : bill_id_t;
  em_embedding : string;
  em_model_name : string;
  em_embedding_dimension : Z
}.

Record Store := {
  dim_parlamentario : list ParlamentarioRow;
  dim_partidos : list PartidoRow;
  votos_parlamentario : list VotoRow;
  sesiones_votacion : list SesionRow;
  bills : list BillRow;
  dim_materias : list MateriaRow;
  bill_materias : list BillMateriaRow;
  bill_embeddings : list EmbeddingRow
}.

(** ** [export_parlamentarios] *)

Record Stats := {
  a_favor : nat;
  en_contra : nat;
  abstencion : nat;
  pareo : nat
}.

Record EstadisticasVoto := {
  total : nat;
  ev_stats : Stats
}.

Record VotacionReciente := {
  vr_bill_id : bill_id_t;
  vr_titulo : string;
  vr_voto : string;
  vr_fecha : string
}.

Record Parlamentario := {
  id : mp_uid_t;
  nombre : string;
  partido : string;
  foto : option string;
  profesion : string;
  estadisticas_voto : EstadisticasVoto;
  votaciones_recientes : list VotacionReciente
}.

(** A row of the first query: mp_uid, nombre_completo, partido, url_foto,
    profesion. *)
Definition ActiveRow : Type :=
  (mp_uid_t * string * string * option string * option string)%type.

Definition ActiveRow_dec (x y : ActiveRow) : {x = y} + {x <> y}.
Proof.
  repeat decide equality; try apply string_dec; try apply Z.eq_dec.
Defined.

(** [LEFT JOIN dim_partidos d ON p.partido_militante_actual_id = d.partido_id]:
    the matching directory rows, or one NULL row when there is none. *)
Definition left_join_partido (st : Store) (p : ParlamentarioRow)
  : list (option PartidoRow) :=
  match
    filter (fun d => match pr_partido_militante_actual_id p with
                     | Some i => Z.eqb i (pa_partido_id d)
                     | None => false
                     end) (dim_partidos st)
  with
  | [] => [None]
  | ds => map Some ds
  end.

(** [COALESCE(d.nombre_partido, 'Independiente')] *)
Definition coalesce_partido (d : option PartidoRow) : string :=
  match d with
  | Some r => match pa_nombre_partido r with
              | Some n => n
              | None => "Independiente"
              end
  | None => "Independiente"
  end.

(** The legislators with a vote in a session dated 2024-01-01 or later. *)
Definition active_rows (st : Store) : list ActiveRow :=
  Sql.order_by
    (fun r1 r2 : ActiveRow =>
       match r1, r2 with
       | (_, n1, _, _, _), (_, n2, _, _, _) => Sql.text_le n1 n2
       end)
    (Sql.distinct ActiveRow_dec
       (flat_map (fun p =>
          flat_map (fun vp =>
            if Z.eqb (pr_mp_uid p) (vp_mp_uid vp) then
              flat_map (fun sv =>
                if Z.eqb (vp_sesion_votacion_id vp) (sv_sesion_votacion_id sv)
                   && Sql.text_ge (sv_fecha sv) "2024-01-01"
                then
                  map (fun d =>
                         (pr_mp_uid p, pr_nombre_completo p, coalesce_partido d,
                          pr_url_foto p, pr_profesion p))
                      (left_join_partido st p)
                else [])
                (sesiones_votacion st)
            else [])
            (votos_parlamentario st))
          (dim_parlamentario st))).

(** The labels of a legislator's vote records, in storage order. *)
Definition votos_of (st : Store) (uid : mp_uid_t) : list string :=
  map vp_voto
      (filter (fun vp => Z.eqb (vp_mp_uid vp) uid) (votos_parlamentario st)).

(** [SELECT voto, COUNT( * ) ... GROUP BY voto]: one row per distinct label,
    with the number of records that carry it. *)
Definition group_by_voto (votos : list string) : list (string * nat) :=
  map (fun l => (l, count_occ string_dec votos l))
      (Sql.order_by Sql.text_le (Sql.distinct string_dec votos)).

Definition stats0 : Stats :=
  {| a_favor := 0; en_contra := 0; abstencion := 0; pareo := 0 |}.

(** The body of the loop over the grouped rows. *)
Definition tally_step (stats : Stats) (row : string * nat) : Stats :=
  let (voto, count) := row in
  let voto_lower := Py.replace1 " " "_" (Py.lower voto) in
  if Py.contains "favor" voto_lower then
    {| a_favor := count; en_contra := en_contra stats;
       abstencion := abstencion stats; pareo := pareo stats |}
  else if Py.contains "contra" voto_lower then
    {| a_favor := a_favor stats; en_contra := count;
       abstencion := abstencion stats; pareo := pareo stats |}
  else if Py.contains "absten" voto_lower then
    {| a_favor := a_favor stats; en_contra := en_contra stats;
       abstencion := count; pareo := pareo stats |}
  else if Py.contains "pareo" voto_lower then
    {| a_favor := a_favor stats; en_contra := en_contra stats;
       abstencion := abstencion stats; pareo := count |}
  else stats.

Definition tally (groups : list (string * nat)) : Stats :=
  fold_left tally_step groups stats0.

(** [sum(stats.values())] *)
Definition sum_stats (s : Stats) : nat :=
  a_favor s + en_contra s + abstencion s + pareo s.

Definition vote_stats (st : Store) (uid : mp_uid_t) : EstadisticasVoto :=
  let stats := tally (group_by_voto (votos_of st uid)) in
  {| total := sum_stats stats; ev_stats := stats |}.

(** A row of the recent-votes query: bill_id, titulo, voto, fecha. *)
Definition RecentRow : Type := (bill_id_t * string * string * string)%type.

Definition recent_fecha (r : RecentRow) : string :=
  match r with (_, _, _, f) => f end.

Definition recent_rows (st : Store) (uid : mp_uid_t) : list RecentRow :=
  Sql.limit 20
    (Sql.order_by
       (fun r1 r2 => Sql.text_ge (recent_fecha r1) (recent_fecha r2))
       (flat_map (fun vp =>
          if Z.eqb (vp_mp_uid vp) uid then
            flat_map (fun sv =>
              if Z.eqb (vp_sesion_votacion_id vp) (sv_sesion_votacion_id sv)
              then
                flat_map (fun b =>
                  if String.eqb (sv_bill_id sv) (br_bill_id b)
                  then [(br_bill_id b, br_titulo b, vp_voto vp, sv_fecha sv)]
                  else [])
                  (bills st)
              else [])
              (sesiones_votacion st)
          else [])
          (votos_parlamentario st))).

(** [titulo[:100] + "..." if len(titulo) > 100 else titulo] *)
Definition truncate_titulo (titulo : string) : string :=
  if Nat.ltb 100 (String.length titulo)
  then (Py.take 100 titulo ++ "...")%string
  else titulo.

Definition votacion_reciente (r : RecentRow) : VotacionReciente :=
  match r with
  | (bill_id, titulo, voto, fecha) =>
      {| vr_bill_id := bill_id;
         vr_titulo := truncate_titulo titulo;
         vr_voto := Py.lower voto;
         vr_fecha := fecha |}
  end.

Definition parlamentario_of (st : Store) (row : ActiveRow) : Parlamentario :=
  match row with
  | (mp_uid, nombre_, partido_, foto_, profesion_) =>
      {| id := mp_uid;
         nombre := nombre_;
         partido := partido_;
         foto := foto_;
         profesion := Py.or_else profesion_ "No especificada";
         estadisticas_voto := vote_stats st mp_uid;
         votaciones_recientes := map votacion_reciente (recent_rows st mp_uid) |}
  end.

Definition export_parlamentarios (st : Store) : list Parlamentario :=
  map (parlamentario_of st) (active_rows st).

(** ** [export_bills] *)

Record Bill := {
  b_id : bill_id_t;
  b_titulo : string;
  b_resumen : string;
  b_fecha : string;
  estado : string;
  tipo : string;
  camara : string;
  materias : list string
}.

(** The "Map estado" block. *)
Definition map_estado (resultado etapa : option string) : string :=
  let estado := "En tramitacion" in
  match resultado with
  | Some (String _ _ as r) =>
      if Py.contains "aprob" (Py.lower r) then "Aprobado"
      else if Py.contains "rechaz" (Py.lower r) then "Rechazado"
      else if Py.contains "archiv" (Py.lower r) then "Archivado"
      else estado
  | _ =>
      match etapa with
      | Some (String _ _ as e) =>
          if Py.contains "primer" (Py.lower e) then "Primer tramite"
          else if Py.contains "segundo" (Py.lower e) then "Segundo tramite"
          else if Py.contains "tercer" (Py.lower e) then "Tercer tramite"
          else if Py.contains "comision" (Py.lower e) then "En comision"
          else estado
      | _ => estado
      end
  end.

(** The "Map camara from origen" block. *)
Definition map_camara (origen : option string) : string :=
  let camara := "Diputados" in
  match origen with
  | Some (String _ _ as o) =>
      if Py.contains "senado" (Py.lower o) then "Senado" else camara
  | _ => camara
  end.

Definition bill_of_row (r : BillRow) : Bill :=
  {| b_id := br_bill_id r;
     b_titulo := br_titulo r;
     b_resumen := Py.or_else (br_resumen r) (br_titulo r);
     b_fecha := br_fecha_ingreso r;
     estado := map_estado (br_resultado_final r) (br_etapa r);
     tipo := Py.or_else (br_iniciativa r) "Mocion";
     camara := map_camara (br_origen r);
     materias := [] |}.

(** [SELECT ... FROM bills ORDER BY fecha_ingreso DESC] *)
Definition bill_rows (st : Store) : list BillRow :=
  Sql.order_by
    (fun r1 r2 => Sql.text_ge (br_fecha_ingreso r1) (br_fecha_ingreso r2))
    (bills st).

Definition bills_dict_t := @Py.dict bill_id_t Bill.

(** The first loop: one entry per bill_id, a later row replaces an earlier
    one with the same bill_id. *)
Definition bills_dict0 (st : Store) : bills_dict_t :=
  fold_left (fun d r => Py.set string_dec (br_bill_id r) (bill_of_row r) d)
            (bill_rows st) [].

(** [SELECT bm.bill_id, m.nombre FROM bill_materias bm
     JOIN dim_materias m ON bm.materia_id = m.materia_id] *)
Definition materia_rows (st : Store) : list (bill_id_t * string) :=
  flat_map (fun bm =>
    flat_map (fun m =>
      if Z.eqb (bm_materia_id bm) (ma_materia_id m)
      then [(bm_bill_id bm, ma_nombre m)]
      else [])
      (dim_materias st))
    (bill_materias st).

Definition append_materia (b : Bill) (materia : string) : Bill :=
  {| b_id := b_id b; b_titulo := b_titulo b; b_resumen := b_resumen b;
     b_fecha := b_fecha b; estado := estado b; tipo := tipo b;
     camara := camara b; materias := materias b ++ [materia] |}.

(** The body of the loop over the join rows. *)
Definition attach_materia (d : bills_dict_t) (row : bill_id_t * string)
  : Py.result bills_dict_t :=
  let (bill_id, materia) := row in
  if Py.mem string_dec bill_id d then
    b <- Py.getitem string_dec bill_id d ;;
    Py.Ok (Py.set string_dec bill_id (append_materia b materia) d)
  else Py.Ok d.

Definition export_bills (st : Store) : Py.result (list Bill) :=
  d <- Py.for_each attach_materia (materia_rows st) (bills_dict0 st) ;;
  Py.Ok (Py.values d).

(** ** JSON values *)

#[warnings="-register-all"]
Inductive Json : Type :=
| JNull
| JInt (z : Z)
| JFloat (q : Q)
| JStr (s : string)
| JArr (items : list Json)
| JObj (members : list (string * Json)).

(** ** [export_embeddings] *)

Record Embedding := {
  billId : bill_id_t;
  embedding : Json
}.

Record EmbeddingMeta := {
  model : string;
  dimension : Z;
  count : nat
}.

Section Embeddings.
Variable json_loads : string -> option Json.

Definition embedding_of_row (row : EmbeddingRow) : Py.result Embedding :=
  match row with
  | {| em_bill_id := bill_id; em_embedding := embedding_json;
       em_model_name := _; em_embedding_dimension := _ |} =>
      match json_loads embedding_json with
      | Some v => Py.Ok {| billId := bill_id; embedding := v |}
      | None => Py.Raise Py.JSONDecodeError
      end
  end.

Definition export_embeddings (st : Store)
  : Py.result (list Embedding * EmbeddingMeta) :=
  embeddings <- Py.map_m embedding_of_row (bill_embeddings st) ;;
  let metadata_emb :=
    {| model := "all-MiniLM-L6-v2";
       dimension := 384;
       count := List.length embeddings |} in
  Py.Ok (embeddings, metadata_emb).
End Embeddings.

(** ** [export_metadata] *)

Record PartyStat := {
  sigla : option string;
  miembros : nat;
  cohesion : Q
}.

Record MetaStats := {
  total_parlamentarios : nat;
  total_bills : nat;
  periodo : string
}.

Definition party_key := option string.

Definition party_key_dec (x y : party_key) : {x = y} + {x <> y}.
Proof. decide equality; apply string_dec. Defined.

Definition party_stats_t := @Py.dict party_key PartyStat.

Record Metadata := {
  md_partidos : party_stats_t;
  md_materias : list string;
  md_stats : MetaStats
}.

(** [partidos = {row[0]: {"nombre": row[1], "sigla": row[2]} ...}] *)
Definition partidos (st : Store)
  : @Py.dict Z (option string * option string) :=
  fold_left (fun d row =>
               Py.set Z.eq_dec (pa_partido_id row)
                      (pa_nombre_partido row, pa_sigla row) d)
            (dim_partidos st) [].

Definition cohesion_directory : Q := (85 # 100)%Q.
Definition cohesion_synthetic : Q := (80 # 100)%Q.

Definition party_stats0 (st : Store) : party_stats_t :=
  fold_left (fun ps (item : Z * (option string * option string)) =>
               let (_, info) := item in
               Py.set party_key_dec (fst info)
                      {| sigla := snd info; miembros := 0;
                         cohesion := cohesion_directory |} ps)
            (partidos st) [].

(** The body of the "Count party members" loop. *)
Definition count_member (ps : party_stats_t) (p : Parlamentario)
  : Py.result party_stats_t :=
  let partido_ := Some (partido p) in
  if Py.mem party_key_dec partido_ ps then
    e <- Py.getitem party_key_dec partido_ ps ;;
    Py.Ok (Py.set party_key_dec partido_
             {| sigla := sigla e; miembros := miembros e + 1;
                cohesion := cohesion e |} ps)
  else
    Py.Ok (Py.set party_key_dec partido_
             {| sigla := Some ""; miembros := 1;
                cohesion := cohesion_synthetic |} ps).

(** [SELECT DISTINCT nombre FROM dim_materias ORDER BY nombre] *)
Definition materia_names (st : Store) : list string :=
  Sql.order_by Sql.text_le
    (Sql.distinct string_dec (map ma_nombre (dim_materias st))).

Definition export_metadata (st : Store) (parlamentarios : list Parlamentario)
           (bills_ : list Bill) : Py.result Metadata :=
  party_stats <- Py.for_each count_member parlamentarios (party_stats0 st) ;;
  Py.Ok {| md_partidos := party_stats;
           md_materias := firstn 100 (materia_names st);
           md_stats := {| total_parlamentarios := List.length parlamentarios;
                          total_bills := List.length bills_;
                          periodo := "2022-2026" |} |}.

(** ** The objects handed to [json.dump] *)

Definition json_opt_str (o : option string) : Json :=
  match o with
  | Some s => JStr s
  | None => JNull
  end.

Definition json_nat (n : nat) : Json := JInt (Z.of_nat n).

Definition json_of_votacion (v : VotacionReciente) : Json :=
  JObj [("bill_id", JStr (vr_bill_id v));
        ("titulo", JStr (vr_titulo v));
        ("voto", JStr (vr_voto v));
        ("fecha", JStr (vr_fecha v))].

Definition json_of_estadisticas (e : EstadisticasVoto) : Json :=
  JObj [("total", json_nat (total e));
        ("a_favor", json_nat (a_favor (ev_stats e)));
        ("en_contra", json_nat (en_contra (ev_stats e)));
        ("abstencion", json_nat (abstencion (ev_stats e)));
        ("pareo", json_nat (pareo (ev_stats e)))].

Definition json_of_parlamentario (p : Parlamentario) : Json :=
  JObj [("id", JInt (id p));
        ("nombre", JStr (nombre p));
        ("partido", JStr (partido p));
        ("foto", json_opt_str (foto p));
        ("profesion", JStr (profesion p));
        ("estadisticas_voto", json_of_estadisticas (estadisticas_voto p));
        ("votaciones_recientes",
         JArr (map json_of_votacion (votaciones_recientes p)))].

Definition json_of_bill (b : Bill) : Json :=
  JObj [("id", JStr (b_id b));
        ("titulo", JStr (b_titulo b));
        ("resumen", JStr (b_resumen b));
        ("fecha", JStr (b_fecha b));
        ("estado", JStr (estado b));
        ("tipo", JStr (tipo b));
        ("camara", JStr (camara b));
        ("materias", JArr (map JStr (materias b)))].

Definition json_of_embedding (e : Embedding) : Json :=
  JObj [("billId", JStr (billId e)); ("embedding", embedding e)].

(** [json.dump] writes a [None] key as ["null"]. *)
Definition json_key (k : party_key) : string :=
  match k with
  | Some s => s
  | None => "null"
  end.

Definition json_of_party_stat (s : PartyStat) : Json :=
  JObj [("sigla", json_opt_str (sigla s));
        ("miembros", json_nat (miembros s));
        ("cohesion", JFloat (cohesion s))].

Definition json_of_metadata (m : Metadata) : Json :=
  JObj [("partidos",
         JObj (map (fun kv : party_key * PartyStat =>
                      (json_key (fst kv), json_of_party_stat (snd kv)))
                   (md_partidos m)));
        ("materias", JArr (map JStr (md_materias m)));
        ("stats",
         JObj [("total_parlamentarios",
                json_nat (total_parlamentarios (md_stats m)));
               ("total_bills", json_nat (total_bills (md_stats m)));
               ("periodo", JStr (periodo (md_stats m)))])].

(** ** [main] *)

(** What a run can observe and change: the store, the files of the output
    directory, and the ambient values a program could read (wall clock,
    hash seed). *)
Record World := {
  store : Store;
  files : @Py.dict string string;
  clock : Z;
  hash_seed : Z
}.

Definition write_file (path content : string) (w : World) : World :=
  {| store := store w;
     files := Py.set string_dec path content (files w);
     clock := clock w;
     hash_seed := hash_seed w |}.

Definition read_file (path : string) (w : World) : option string :=
  Py.get string_dec path (files w).

Definition output_files : list string :=
  ["diputados.json"; "bills.json"; "embeddings.json"; "metadata.json"].

Section Main.
Variable json_loads : string -> option Json.
(** [json.dumps(obj, ensure_ascii=False, indent=indent)] *)
Variable json_dumps : option nat -> Json -> string.

(** The four exporters in sequence; an exception stops the run where it
    is raised, the files written so far stay. *)
Definition main (w : World) : World * Py.result unit :=
  let st := store w in
  let parlamentarios := export_parlamentarios st in
  let w1 :=
    write_file "diputados.json"
      (json_dumps (Some 2) (JArr (map json_of_parlamentario parlamentarios)))
      w in
  match export_bills st with
  | Py.Raise e => (w1, Py.Raise e)
  | Py.Ok bills_ =>
      let w2 :=
        write_file "bills.json"
          (json_dumps (Some 2) (JArr (map json_of_bill bills_))) w1 in
      match export_embeddings json_loads st with
      | Py.Raise e => (w2, Py.Raise e)
      | Py.Ok (embeddings, emb_meta) =>
          let w3 :=
            write_file "embeddings.json"
              (json_dumps None (JArr (map json_of_embedding embeddings)))
              w2 in
          match export_metadata st parlamentarios bills_ with
          | Py.Raise e => (w3, Py.Raise e)
          | Py.Ok metadata =>
              (write_file "metadata.json"
                 (json_dumps (Some 2) (json_of_metadata metadata)) w3,
               Py.Ok tt)
          end
      end
  end.
End Main.

(** ** The specification's reading of the derived fields *)

(** The four vote categories and the substring that selects each. *)
Inductive Category : Type := Favor | Contra | Absten | Pareo.

Definition Category_dec (x y : Category) : {x = y} + {x <> y}.
Proof. decide equality. Defined.

Definition option_Category_dec (x y : option Category) : {x = y} + {x <> y}.
Proof. decide equality; apply Category_dec. Defined.

(** The category of a raw label: the first of favor, contra, absten, pareo
    that the lower-cased label contains. *)
Definition classify (voto : string) : option Category :=
  let l := Py.lower voto in
  if Py.contains "favor" l then Some Favor
  else if Py.contains "contra" l then Some Contra
  else if Py.contains "absten" l then Some Absten
  else if Py.contains "pareo" l then Some Pareo
  else None.

Definition in_category (c : Category) (voto : string) : bool :=
  if option_Category_dec (classify voto) (Some c) then true else false.

(** The number of vote records whose label falls in category [c]. *)
Definition records_in (c : Category) (votos : list string) : nat :=
  List.length (filter (in_category c) votos).

Definition stat (c : Category) (s : Stats) : nat :=
  match c with
  | Favor => a_favor s
  | Contra => en_contra s
  | Absten => abstencion s
  | Pareo => pareo s
  end.

(** What the tally loop leaves in a category: the count of the last
    grouped row whose label falls in it. *)
Fixpoint last_count (c : Category) (groups : list (string * nat))
  : option nat :=
  match groups with
  | [] => None
  | (l, n) :: gs =>
      match last_count c gs with
      | Some m => Some m
      | None => if in_category c l then Some n else None
      end
  end.

(** [p] has no occurrence of the character [c]. *)
Fixpoint free_of (c : ascii) (p : string) : Prop :=
  match p with
  | EmptyString => True
  | String a p' => a <> c /\ free_of c p'
  end.

(** The status of a bill by priority: result, then stage, then default. *)
Definition estado_from_result (r : string) : string :=
  if Py.contains "aprob" (Py.lower r) then "Aprobado"
  else if Py.contains "rechaz" (Py.lower r) then "Rechazado"
  else if Py.contains "archiv" (Py.lower r) then "Archivado"
  else "En tramitacion".

Definition estado_from_stage (e : string) : string :=
  if Py.contains "primer" (Py.lower e) then "Primer tramite"
  else if Py.contains "segundo" (Py.lower e) then "Segundo tramite"
  else if Py.contains "tercer" (Py.lower e) then "Tercer tramite"
  else if Py.contains "comision" (Py.lower e) then "En comision"
  else "En tramitacion".

Definition non_empty (o : option string) : Prop :=
  exists s, o = Some s /\ s <> "".

Definition estado_labels : list string :=
  ["Aprobado"; "Rechazado"; "Archivado"; "Primer tramite"; "Segundo tramite";
   "Tercer tramite"; "En comision"; "En tramitacion"].

(** The members a party name has among the exported legislators. *)
Definition members_of (k : party_key) (ps : list Parlamentario) : nat :=
  List.length
    (filter (fun p => if party_key_dec (Some (partido p)) k then true else false)
            ps).

(** The directory as the exporter loads it: name and abbreviation of each
    party record, one record per partido_id. *)
Definition directory (st : Store) : list (option string * option string) :=
  Py.values (partidos st).

Definition directory_names (st : Store) : list party_key :=
  map fst (directory st).

(** A bill without its subject tags. *)
Definition bill_core (b : Bill) : Bill :=
  {| b_id := b_id b; b_titulo := b_titulo b; b_resumen := b_resumen b;
     b_fecha := b_fecha b; estado := estado b; tipo := tipo b;
     camara := camara b; materias := [] |}.

(** A bill with more subject tags at the end of its collection. *)
Definition extend_materias (b : Bill) (ms : list string) : Bill :=
  {| b_id := b_id b; b_titulo := b_titulo b; b_resumen := b_resumen b;
     b_fecha := b_fecha b; estado := estado b; tipo := tipo b;
     camara := camara b; materias := materias b ++ ms |}.

(** What the loop over the join rows computes: each entry receives, in
    order, the tags of the rows that carry its key. *)
Definition attach_all (rows : list (bill_id_t * string)) (d : bills_dict_t)
  : bills_dict_t :=
  map (fun kv : bill_id_t * Bill =>
         (fst kv,
          extend_materias (snd kv)
            (map snd (filter (fun r => String.eqb (fst r) (fst kv)) rows))))
      d.

(** The tag names of the join rows keyed by a bill identity. *)
Definition materias_of (st : Store) (bid : bill_id_t) : list string :=
  map snd (filter (fun r => String.eqb (fst r) bid) (materia_rows st)).

(** ** A small store used to run the exporter *)

Definition long_title : string :=
  "Proyecto de ley que modifica diversos cuerpos legales con el objeto de fortalecer la proteccion de los datos personales".

Local Open Scope Z_scope.

Definition demo_store : Store :=
  {| dim_parlamentario :=
       [ {| pr_mp_uid := 1; pr_nombre_completo := "Ana Rojas";
            pr_partido_militante_actual_id := Some 10%Z;
            pr_url_foto := Some "ana.jpg"; pr_profesion := Some "Abogada" |};
         {| pr_mp_uid := 2; pr_nombre_completo := "Beto Soto";
            pr_partido_militante_actual_id := None;
            pr_url_foto := None; pr_profesion := None |};
         {| pr_mp_uid := 3; pr_nombre_completo := "Carla Diaz";
            pr_partido_militante_actual_id := Some 12%Z;
            pr_url_foto := None; pr_profesion := Some "" |} ];
     dim_partidos :=
       [ {| pa_partido_id := 10; pa_nombre_partido := Some "Partido A";
            pa_sigla := Some "PA" |};
         {| pa_partido_id := 11; pa_nombre_partido := Some "Partido B";
            pa_sigla := Some "PB" |};
         {| pa_partido_id := 12; pa_nombre_partido := None;
            pa_sigla := None |} ];
     votos_parlamentario :=
       [ {| vp_mp_uid := 1; vp_sesion_votacion_id := 1; vp_voto := "a favor" |};
         {| vp_mp_uid := 1; vp_sesion_votacion_id := 2; vp_voto := "en contra" |};
         {| vp_mp_uid := 1; vp_sesion_votacion_id := 3; vp_voto := "a favor" |};
         {| vp_mp_uid := 1; vp_sesion_votacion_id := 4; vp_voto := "nulo" |};
         {| vp_mp_uid := 1; vp_sesion_votacion_id := 5; vp_voto := "a favor" |};
         {| vp_mp_uid := 2; vp_sesion_votacion_id := 1; vp_voto := "A favor" |};
         {| vp_mp_uid := 2; vp_sesion_votacion_id := 2; vp_voto := "a favor" |};
         {| vp_mp_uid := 3; vp_sesion_votacion_id := 5; vp_voto := "Pareo" |} ];
     sesiones_votacion :=
       [ {| sv_sesion_votacion_id := 1; sv_bill_id := "1001-07";
            sv_fecha := "2024-03-05" |};
         {| sv_sesion_votacion_id := 2; sv_bill_id := "1002-11";
            sv_fecha := "2024-06-18" |};
         {| sv_sesion_votacion_id := 3; sv_bill_id := "1003-04";
            sv_fecha := "2023-11-30" |};
         {| sv_sesion_votacion_id := 4; sv_bill_id := "1001-07";
            sv_fecha := "2024-01-15" |};
         {| sv_sesion_votacion_id := 5; sv_bill_id := "1002-11";
            sv_fecha := "2025-01-08" |} ];
     bills :=
       [ {| br_bill_id := "1001-07"; br_titulo := long_title;
            br_resumen := None; br_fecha_ingreso := "2023-05-02";
            br_etapa := Some "Primer tramite constitucional";
            br_resultado_final := Some "Aprobado por unanimidad";
            br_iniciativa := Some "Mensaje"; br_origen := Some "Senado" |};
         {| br_bill_id := "1002-11"; br_titulo := "Ley corta";
            br_resumen := Some "Resumen"; br_fecha_ingreso := "2024-02-11";
            br_etapa := Some "Segundo tramite constitucional";
            br_resultado_final := None;
            br_iniciativa := None; br_origen := None |};
         {| br_bill_id := "1003-04"; br_titulo := "Reforma";
            br_resumen := Some ""; br_fecha_ingreso := "2022-09-21";
            br_etapa := None; br_resultado_final := Some "";
            br_iniciativa := Some "Mocion";
            br_origen := Some "C. Diputados" |} ];
     dim_materias :=
       [ {| ma_materia_id := 1; ma_nombre := "Salud" |};
         {| ma_materia_id := 2; ma_nombre := "Educacion" |} ];
     bill_materias :=
       [ {| bm_bill_id := "1001-07"; bm_materia_id := 1 |};
         {| bm_bill_id := "9999-99"; bm_materia_id := 2 |};
         {| bm_bill_id := "1001-07"; bm_materia_id := 2 |};
         {| bm_bill_id := "1002-11"; bm_materia_id := 2 |} ];
     bill_embeddings :=
       [ {| em_bill_id := "1001-07"; em_embedding := "[0.5, 0.25]";
            em_model_name := "other-model"; em_embedding_dimension := 2 |};
         {| em_bill_id := "1002-11"; em_embedding := "[1, 0]";
            em_model_name := "all-MiniLM-L6-v2";
            em_embedding_dimension := 384 |} ] |}.

(** A legislator with twenty-five votes, to reach the cap on the
    recent-vote history. *)
Definition busy_store : Store :=
  {| dim_parlamentario :=
       [ {| pr_mp_uid := 7; pr_nombre_completo := "Dora Paz";
            pr_partido_militante_actual_id := None;
            pr_url_foto := None; pr_profesion := None |} ];
     dim_partidos := [];
     votos_parlamentario :=
       repeat {| vp_mp_uid := 7; vp_sesion_votacion_id := 1;
                 vp_voto := "Abstencion" |} 25;
     sesiones_votacion :=
       [ {| sv_sesion_votacion_id := 1; sv_bill_id := "1001-07";
            sv_fecha := "2024-03-05" |} ];
     bills := bills demo_store;
     dim_materias := [];
     bill_materias := [];
     bill_embeddings := [] |}.

Local Close Scope Z_scope.

(** Stand-ins for the library's [json.loads] and [json.dumps], enough to run
    the model: the parsed value keeps the text, the printer tells the two
    layouts apart. *)
Definition demo_loads (s : string) : option Json :=
  match s with
  | EmptyString => None
  | _ => Some (JStr s)
  end.

Definition demo_dumps (indent : option nat) (j : Json) : string :=
  match indent, j with
  | Some _, JArr items => "indented array"
  | Some _, _ => "indented value"
  | None, _ => "compact value"
  end.

Definition demo_world (previous : @Py.dict string string) (t seed : Z)
  : World :=
  {| store := demo_store; files := previous; clock := t; hash_seed := seed |}.

(** ** The joins of the two legislator queries, named on their own *)

(** The FROM, JOIN and WHERE part of the first query, before DISTINCT and
    ORDER BY. *)
Definition active_join (st : Store) : list ActiveRow :=
  flat_map (fun p =>
    flat_map (fun vp =>
      if Z.eqb (pr_mp_uid p) (vp_mp_uid vp) then
        flat_map (fun sv =>
          if Z.eqb (vp_sesion_votacion_id vp) (sv_sesion_votacion_id sv)
             && Sql.text_ge (sv_fecha sv) "2024-01-01"
          then
            map (fun d =>
                   (pr_mp_uid p, pr_nombre_completo p, coalesce_partido d,
                    pr_url_foto p, pr_profesion p))
                (left_join_partido st p)
          else [])
          (sesiones_votacion st)
      else [])
      (votos_parlamentario st))
    (dim_parlamentario st).

(** The FROM, JOIN and WHERE part of the recent-votes query, before
    ORDER BY and LIMIT. *)
Definition recent_join (st : Store) (uid : mp_uid_t) : list RecentRow :=
  flat_map (fun vp =>
    if Z.eqb (vp_mp_uid vp) uid then
      flat_map (fun sv =>
        if Z.eqb (vp_sesion_votacion_id vp) (sv_sesion_votacion_id sv)
        then
          flat_map (fun b =>
            if String.eqb (sv_bill_id sv) (br_bill_id b)
            then [(br_bill_id b, br_titulo b, vp_voto vp, sv_fecha sv)]
            else [])
            (bills st)
        else [])
        (sesiones_votacion st)
    else [])
    (votos_parlamentario st).

(** The members counted over all party entries. *)
Definition total_miembros (d : party_stats_t) : nat :=
  list_sum (map (fun kv : party_key * PartyStat => miembros (snd kv)) d).

(** [demo_store] with one more embedding row, whose payload does not
    parse. *)
Definition broken_store : Store :=
  {| dim_parlamentario := dim_parlamentario demo_store;
     dim_partidos := dim_partidos demo_store;
     votos_parlamentario := votos_parlamentario demo_store;
     sesiones_votacion := sesiones_votacion demo_store;
     bills := bills demo_store;
     dim_materias := dim_materias demo_store;
     bill_materias := bill_materias demo_store;
     bill_embeddings :=
       bill_embeddings demo_store ++
       [ {| em_bill_id := "1003-04"; em_embedding := "";
            em_model_name := "all-MiniLM-L6-v2";
            em_embedding_dimension := 384%Z |} ] |}.

(** A bills table where one bill identity is filed twice. *)
Definition refiled_store : Store :=
  {| dim_parlamentario := []; dim_partidos := [];
     votos_parlamentario := []; sesiones_votacion := [];
     bills :=
       [ {| br_bill_id := "2001-06"; br_titulo := "Texto refundido";
            br_resumen := None; br_fecha_ingreso := "2024-05-20";
            br_etapa := None; br_resultado_final := None;
            br_iniciativa := None; br_origen := None |};
         {| br_bill_id := "2002-13"; br_titulo := "Otra ley";
            br_resumen := None; br_fecha_ingreso := "2023-08-01";
            br_etapa := None; br_resultado_final := None;
            br_iniciativa := None; br_origen := None |};
         {| br_bill_id := "2001-06"; br_titulo := "Texto original";
            br_resumen := None; br_fecha_ingreso := "2020-01-10";
            br_etapa := None; br_resultado_final := Some "Archivado";
            br_iniciativa := None; br_origen := None |} ];
     dim_materias := []; bill_materias := []; bill_embeddings := [] |}.

(** A subject-tag table with 120 distinct one-character names. *)
Definition many_materias_store : Store :=
  {| dim_parlamentario := []; dim_partidos := [];
     votos_parlamentario := []; sesiones_votacion := [];
     bills := [];
     dim_materias :=
       map (fun n => {| ma_materia_id := Z.of_nat n;
                        ma_nombre := String (ascii_of_nat n) EmptyString |})
           (seq 0 120);
     bill_materias := []; bill_embeddings := [] |}.

(** [demo_store] with a party directory where partido_id is not a key. *)
Definition recoded_store : Store :=
  {| dim_parlamentario := dim_parlamentario demo_store;
     dim_partidos :=
       [ {| pa_partido_id := 10%Z; pa_nombre_partido := Some "Partido A";
            pa_sigla := Some "PA" |};
         {| pa_partido_id := 10%Z; pa_nombre_partido := Some "Partido B";
            pa_sigla := Some "PB" |} ];
     votos_parlamentario := votos_parlamentario demo_store;
     sesiones_votacion := sesiones_votacion demo_store;
     bills := bills demo_store;
     dim_materias := dim_materias demo_store;
     bill_materias := bill_materias demo_store;
     bill_embeddings := bill_embeddings demo_store |}.

(** * Properties *)


(** ** Dictionaries *)

Section DictFacts.
Context {K V : Type} (K_dec : forall x y : K, {x = y} + {x <> y}).
Implicit Types (d : @Py.dict K V) (k : K) (v : V).

Lemma get_set_eq d k v : Py.get K_dec k (Py.set K_dec k v d) = Some v.
Proof.
  induction d as [|[k' v'] d IH]; simpl.
  - destruct (K_dec k k); congruence.
  - destruct (K_dec k k') as [->|Hne]; simpl.
    + destruct (K_dec k' k'); congruence.
    + destruct (K_dec k k'); [contradiction | exact IH].
Qed.

Lemma get_set_neq d k k' v :
  k <> k' -> Py.get K_dec k' (Py.set K_dec k v d) = Py.get K_dec k' d.
Proof.
  intros Hne. induction d as [|[k0 v0] d IH]; simpl.
  - destruct (K_dec k' k); congruence.
  - destruct (K_dec k k0) as [->|Hk]; simpl.
    + destruct (K_dec k' k0); congruence.
    + destruct (K_dec k' k0); [reflexivity | exact IH].
Qed.

Lemma get_None d k : Py.get K_dec k d = None <-> ~ In k (Py.keys d).
Proof.
  induction d as [|[k' v'] d IH]; simpl.
  - tauto.
  - destruct (K_dec k k') as [->|Hne].
    + split; [discriminate | intros H; exfalso; apply H; now left].
    + rewrite IH. split; intros H; [intros [E|E]; [congruence | auto] | tauto].
Qed.

Lemma in_set d k v k' v' :
  In (k', v') (Py.set K_dec k v d) -> (k', v') = (k, v) \/ In (k', v') d.
Proof.
  induction d as [|[k0 v0] d IH]; simpl.
  - intros [E|[]]. left. congruence.
  - destruct (K_dec k k0) as [->|Hne]; simpl.
    + intros [E|H]; [left; congruence | right; now right].
    + intros [E|H]; [right; now left|].
      destruct (IH H); [now left | right; now right].
Qed.

Lemma keys_set_in d k v :
  forall k', In k' (Py.keys (Py.set K_dec k v d)) <-> k' = k \/ In k' (Py.keys d).
Proof.
  induction d as [|[k0 v0] d IH]; simpl; intros k'.
  - split; [intros [E|[]]; now left | intros [E|[]]; now left].
  - destruct (K_dec k k0) as [->|Hne]; simpl.
    + split; [intros [E|H]; right; [now left | now right] |].
      intros [E|[E|H]]; [left; congruence | now left | now right].
    + rewrite IH. split.
      * intros [E|[E|H]]; [right; now left | now left | right; now right].
      * intros [E|[E|H]]; [right; now left | now left | right; now right].
Qed.

Lemma NoDup_keys_set d k v :
  NoDup (Py.keys d) -> NoDup (Py.keys (Py.set K_dec k v d)).
Proof.
  induction d as [|[k0 v0] d IH]; simpl; intros Hnd.
  - constructor; [intros [] | constructor].
  - inversion Hnd as [|? ? Hnot Hnd']; subst.
    destruct (K_dec k k0) as [->|Hne]; simpl.
    + now constructor.
    + constructor; [|now apply IH].
      rewrite keys_set_in. intros [E|H]; [congruence | contradiction].
Qed.

End DictFacts.

(** ** Sorting and duplicate removal *)

Section SortFacts.
Context {A : Type} (le : A -> A -> bool).
Hypothesis le_total : forall x y, le x y = true \/ le y x = true.

Lemma insert_perm x l : Permutation (x :: l) (Sql.insert le x l).
Proof.
  induction l as [|y l IH]; simpl; [reflexivity|].
  destruct (le x y); [reflexivity|].
  rewrite perm_swap. now constructor.
Qed.

Lemma order_by_perm l : Permutation l (Sql.order_by le l).
Proof.
  induction l as [|x l IH]; simpl; [constructor|].
  rewrite <- insert_perm. now constructor.
Qed.

Lemma order_by_In l x : In x (Sql.order_by le l) <-> In x l.
Proof.
  split; apply Permutation_in;
    [symmetry; apply order_by_perm | apply order_by_perm].
Qed.

Lemma insert_sorted x l :
  Sorted (fun a b => le a b = true) l ->
  Sorted (fun a b => le a b = true) (Sql.insert le x l).
Proof.
  induction l as [|y l IH]; simpl; intros Hs.
  - repeat constructor.
  - destruct (le x y) eqn:Hxy.
    + constructor; [assumption | now constructor].
    + inversion Hs as [|? ? Hs' Hhd]; subst.
      constructor; [now apply IH|].
      destruct l as [|z l]; simpl.
      * constructor. destruct (le_total x y); congruence.
      * destruct (le x z); constructor.
        -- destruct (le_total x y); congruence.
        -- now inversion Hhd.
Qed.

Lemma order_by_sorted l :
  Sorted (fun a b => le a b = true) (Sql.order_by le l).
Proof.
  induction l as [|x l IH]; simpl; [constructor | now apply insert_sorted].
Qed.
End SortFacts.

Lemma Sorted_firstn {A} (R : A -> A -> Prop) n l :
  Sorted R l -> Sorted R (firstn n l).
Proof.
  revert l. induction n as [|n IH]; intros l Hs; simpl; [constructor|].
  destruct l as [|x l]; [constructor|].
  inversion Hs as [|? ? Hs' Hhd]; subst.
  constructor; [now apply IH|].
  destruct n; simpl; [constructor|].
  destruct l; [constructor|]. inversion Hhd; subst. now constructor.
Qed.

Lemma Sorted_map {A B} (f : A -> B) (R : B -> B -> Prop) l :
  Sorted (fun a b => R (f a) (f b)) l -> Sorted R (map f l).
Proof.
  induction 1 as [|x l Hs IH Hhd]; simpl; constructor; [assumption|].
  destruct Hhd; simpl; now constructor.
Qed.

Lemma Sorted_adjacent {A} (R : A -> A -> Prop) l :
  Sorted R l ->
  forall i a b, nth_error l i = Some a -> nth_error l (S i) = Some b -> R a b.
Proof.
  induction 1 as [|x l Hs IH Hhd]; intros i a b Ha Hb.
  - destruct i; discriminate.
  - destruct i as [|i]; simpl in *.
    + inversion Ha; subst. destruct l as [|y l]; [discriminate|].
      simpl in Hb. inversion Hb; subst. now inversion Hhd.
    + eapply IH; eassumption.
Qed.

Section DistinctFacts.
Context {A : Type} (A_dec : forall x y : A, {x = y} + {x <> y}).

Lemma distinct_from_In seen l x :
  In x (Sql.distinct_from A_dec seen l) <-> In x l /\ ~ In x seen.
Proof.
  revert seen. induction l as [|y l IH]; intros seen; simpl; [tauto|].
  destruct (in_dec A_dec y seen) as [Hy|Hy]; simpl; rewrite IH; simpl.
  - split; [tauto|]. intros [[E|H] Hn]; [subst; contradiction | tauto].
  - split.
    + intros [E|[H Hn]]; [subst; tauto | tauto].
    + intros [[E|H] Hn]; [now left|].
      destruct (A_dec y x); [now left | right; tauto].
Qed.

Lemma distinct_from_NoDup seen l : NoDup (Sql.distinct_from A_dec seen l).
Proof.
  revert seen. induction l as [|y l IH]; intros seen; simpl; [constructor|].
  destruct (in_dec A_dec y seen); [apply IH|].
  constructor; [|apply IH].
  rewrite distinct_from_In. simpl. tauto.
Qed.

Lemma distinct_In l x : In x (Sql.distinct A_dec l) <-> In x l.
Proof. unfold Sql.distinct. rewrite distinct_from_In. simpl. tauto. Qed.

Lemma distinct_NoDup l : NoDup (Sql.distinct A_dec l).
Proof. apply distinct_from_NoDup. Qed.
End DistinctFacts.

(** ** Strings *)

Lemma prefix_replace1 old new p s :
  free_of old p -> free_of new p ->
  prefix p (Py.replace1 old new s) = prefix p s.
Proof.
  revert p. induction s as [|b s IH]; intros [|a p] Ho Hn; simpl;
    try reflexivity.
  destruct Ho as [Hao Ho], Hn as [Han Hn].
  destruct (Ascii.eqb_spec b old) as [->|Hb].
  - destruct (ascii_dec a new); [contradiction|].
    destruct (ascii_dec a old); [contradiction | reflexivity].
  - destruct (ascii_dec a b); [now apply IH | reflexivity].
Qed.

Lemma contains_replace1 old new p s :
  free_of old p -> free_of new p ->
  Py.contains p (Py.replace1 old new s) = Py.contains p s.
Proof.
  intros Ho Hn. induction s as [|b s IH].
  - reflexivity.
  - change (Py.replace1 old new (String b s))
      with (String (if Ascii.eqb b old then new else b) (Py.replace1 old new s)).
    cbn [Py.contains].
    change (String (if Ascii.eqb b old then new else b) (Py.replace1 old new s))
      with (Py.replace1 old new (String b s)).
    rewrite prefix_replace1 by assumption. now rewrite IH.
Qed.

Ltac free_of_solve := cbn [free_of]; repeat split; discriminate.

(** The space-to-underscore replacement never changes the branch taken. *)
Lemma tally_step_classify s l n :
  tally_step s (l, n) =
  match classify l with
  | Some Favor =>
      {| a_favor := n; en_contra := en_contra s;
         abstencion := abstencion s; pareo := pareo s |}
  | Some Contra =>
      {| a_favor := a_favor s; en_contra := n;
         abstencion := abstencion s; pareo := pareo s |}
  | Some Absten =>
      {| a_favor := a_favor s; en_contra := en_contra s;
         abstencion := n; pareo := pareo s |}
  | Some Pareo =>
      {| a_favor := a_favor s; en_contra := en_contra s;
         abstencion := abstencion s; pareo := n |}
  | None => s
  end.
Proof.
  unfold tally_step, classify.
  rewrite !contains_replace1 by free_of_solve.
  destruct (Py.contains "favor" (Py.lower l)); [reflexivity|].
  destruct (Py.contains "contra" (Py.lower l)); [reflexivity|].
  destruct (Py.contains "absten" (Py.lower l)); [reflexivity|].
  destruct (Py.contains "pareo" (Py.lower l)); reflexivity.
Qed.

(** ** Vote tallies *)

Lemma stat_tally_step c s l n :
  stat c (tally_step s (l, n)) = if in_category c l then n else stat c s.
Proof.
  rewrite tally_step_classify. unfold in_category.
  destruct (classify l) as [[]|]; destruct c; reflexivity.
Qed.

Lemma tally_last c gs s :
  stat c (fold_left tally_step gs s) =
  match last_count c gs with
  | Some m => m
  | None => stat c s
  end.
Proof.
  revert s. induction gs as [|[l n] gs IH]; intros s; [reflexivity|].
  cbn [fold_left last_count].
  rewrite IH. destruct (last_count c gs); [reflexivity|].
  rewrite stat_tally_step. now destruct (in_category c l).
Qed.

Lemma last_count_some c (f : string -> nat) ls m :
  last_count c (map (fun l => (l, f l)) ls) = Some m ->
  exists l, In l ls /\ in_category c l = true /\ m = f l.
Proof.
  induction ls as [|l ls IH]; simpl; [discriminate|].
  destruct (last_count c (map (fun l => (l, f l)) ls)) as [m'|].
  - intros E. destruct (IH E) as (l' & Hin & Hc & Hm). eauto.
  - destruct (in_category c l) eqn:Hc; [|discriminate].
    intros E. inversion E. eauto.
Qed.

Lemma last_count_none c (f : string -> nat) ls :
  last_count c (map (fun l => (l, f l)) ls) = None ->
  forall l, In l ls -> in_category c l = false.
Proof.
  induction ls as [|l ls IH]; simpl; [tauto|].
  destruct (last_count c (map (fun l => (l, f l)) ls)); [discriminate|].
  destruct (in_category c l) eqn:Hc; [discriminate|].
  intros _ l' [<-|Hin]; auto.
Qed.

Lemma records_in_unique c votos l0 :
  (forall l, In l votos -> in_category c l = true -> l = l0) ->
  in_category c l0 = true ->
  records_in c votos = count_occ string_dec votos l0.
Proof.
  unfold records_in. intros Hu H0.
  induction votos as [|l votos IH]; simpl; [reflexivity|].
  destruct (in_category c l) eqn:Hc.
  - rewrite (Hu l (or_introl eq_refl) Hc).
    destruct (string_dec l0 l0); [|congruence].
    simpl. f_equal. apply IH. intros; apply Hu; [now right | assumption].
  - destruct (string_dec l l0) as [->|]; [congruence|].
    apply IH. intros; apply Hu; [now right | assumption].
Qed.

Lemma records_in_none c votos :
  (forall l, In l votos -> in_category c l = false) -> records_in c votos = 0.
Proof.
  unfold records_in. induction votos as [|l votos IH]; simpl; [reflexivity|].
  intros H. rewrite (H l (or_introl eq_refl)). apply IH. auto.
Qed.

Lemma records_in_perm c l l' :
  Permutation l l' -> records_in c l = records_in c l'.
Proof.
  unfold records_in. induction 1; simpl; try congruence.
  - destruct (in_category c x); simpl; congruence.
  - destruct (in_category c x), (in_category c y); reflexivity.
Qed.

Lemma group_by_voto_labels votos l :
  In l (Sql.order_by Sql.text_le (Sql.distinct string_dec votos)) <->
  In l votos.
Proof. now rewrite order_by_In, distinct_In. Qed.

(** When the labels of a category are all the same string, the tally of the
    category is the number of records in it. *)
Lemma tally_unambiguous c votos :
  (forall l1 l2, In l1 votos -> In l2 votos ->
                 in_category c l1 = true -> in_category c l2 = true ->
                 l1 = l2) ->
  stat c (tally (group_by_voto votos)) = records_in c votos.
Proof.
  intros Hu. unfold tally, group_by_voto. rewrite tally_last.
  destruct (last_count c _) as [m|] eqn:E.
  - apply last_count_some in E. destruct E as (l0 & Hin & Hc & ->).
    apply (proj1 (group_by_voto_labels _ _)) in Hin. symmetry.
    apply records_in_unique; [|assumption].
    intros l Hl Hcl. now apply Hu.
  - replace (stat c stats0) with 0 by now destruct c.
    symmetry. apply records_in_none. intros l Hl.
    eapply last_count_none; [exact E|].
    now apply (proj2 (group_by_voto_labels _ _)).
Qed.

Lemma export_parlamentarios_fields st p :
  In p (export_parlamentarios st) ->
  estadisticas_voto p = vote_stats st (id p) /\
  votaciones_recientes p = map votacion_reciente (recent_rows st (id p)).
Proof.
  unfold export_parlamentarios. rewrite in_map_iff.
  intros ([[[[uid n] pa] fo] pro] & <- & _). simpl. split; reflexivity.
Qed.

Lemma stats_ext s1 s2 :
  (forall c, stat c s1 = stat c s2) -> s1 = s2.
Proof.
  intros H. destruct s1, s2.
  pose proof (H Favor). pose proof (H Contra).
  pose proof (H Absten). pose proof (H Pareo). simpl in *. congruence.
Qed.

(** C1 (the code departs from the claim).  The claim: each tally equals the
    number of the legislator's vote records whose label falls in the
    category, also when several distinct labels fall in the same category.
    In [demo_store] legislator 2 is exported and has two records, labelled
    "A favor" and "a favor"; both are in the favor category, so two records
    are in it, but the exported tally is 1 (and the total is 1): the loop
    assigns the count of each grouped row instead of adding it. *)
Theorem tally_overwrites_same_category :
  exists p,
    In p (export_parlamentarios demo_store) /\
    id p = 2%Z /\
    votos_of demo_store (id p) = ["A favor"; "a favor"] /\
    records_in Favor (votos_of demo_store (id p)) = 2 /\
    a_favor (ev_stats (estadisticas_voto p)) = 1 /\
    total (estadisticas_voto p) = 1.
Proof.
  exists (parlamentario_of demo_store
            (2%Z, "Beto Soto", "Independiente", None, None)).
  split; [right; left; reflexivity|].
  repeat split; reflexivity.
Qed.

(** The loss does not depend on the order in which the grouped rows come. *)
Lemma tally_overwrites_any_group_order gs :
  Permutation [("A favor", 1); ("a favor", 1)] gs ->
  a_favor (tally gs) = 1.
Proof.
  intros H. apply Permutation_length_2_inv in H.
  destruct H as [-> | ->]; reflexivity.
Qed.

(** C2.  A legislator whose vote records are three "a favor", one
    "en contra" and one "nulo" (in any storage order) is exported with
    a_favor = 3, en_contra = 1, abstencion = 0, pareo = 0 and total = 4: the
    unrecognised record is in no tally and not in the total. *)
Theorem scenario_tally st p :
  In p (export_parlamentarios st) ->
  Permutation (votos_of st (id p))
              ["a favor"; "a favor"; "a favor"; "en contra"; "nulo"] ->
  estadisticas_voto p =
  {| total := 4;
     ev_stats := {| a_favor := 3; en_contra := 1;
                    abstencion := 0; pareo := 0 |} |}.
Proof.
  intros Hp Hperm.
  destruct (export_parlamentarios_fields st p Hp) as [-> _].
  unfold vote_stats.
  assert (Hs : tally (group_by_voto (votos_of st (id p))) =
               {| a_favor := 3; en_contra := 1;
                  abstencion := 0; pareo := 0 |}).
  { apply stats_ext. intros c. rewrite tally_unambiguous.
    - rewrite (records_in_perm c _ _ Hperm). now destruct c.
    - intros l1 l2 H1 H2.
      apply (Permutation_in _ Hperm) in H1.
      apply (Permutation_in _ Hperm) in H2.
      simpl in H1, H2.
      repeat (destruct H1 as [<-|H1]); try contradiction;
        repeat (destruct H2 as [<-|H2]); try contradiction;
        destruct c; vm_compute; congruence. }
  rewrite Hs. reflexivity.
Qed.

Lemma scenario_tally_witness :
  In (parlamentario_of demo_store
        (1%Z, "Ana Rojas", "Partido A", Some "ana.jpg", Some "Abogada"))
     (export_parlamentarios demo_store) /\
  Permutation ["a favor"; "en contra"; "a favor"; "nulo"; "a favor"]
              ["a favor"; "a favor"; "a favor"; "en contra"; "nulo"] /\
  estadisticas_voto
    (parlamentario_of demo_store
       (1%Z, "Ana Rojas", "Partido A", Some "ana.jpg", Some "Abogada")) =
  {| total := 4;
     ev_stats := {| a_favor := 3; en_contra := 1;
                    abstencion := 0; pareo := 0 |} |}.
Proof.
  assert (Hin : In (parlamentario_of demo_store
                      (1%Z, "Ana Rojas", "Partido A", Some "ana.jpg",
                       Some "Abogada"))
                   (export_parlamentarios demo_store))
    by (left; reflexivity).
  assert (Hperm : Permutation
                    ["a favor"; "en contra"; "a favor"; "nulo"; "a favor"]
                    ["a favor"; "a favor"; "a favor"; "en contra"; "nulo"]).
  { apply perm_skip.
    apply perm_trans with ["a favor"; "en contra"; "nulo"; "a favor"];
      [apply perm_swap|].
    apply perm_skip.
    apply perm_trans with ["en contra"; "a favor"; "nulo"];
      [apply perm_skip; apply perm_swap | apply perm_swap]. }
  split; [exact Hin|]. split; [exact Hperm|].
  exact (scenario_tally demo_store _ Hin Hperm).
Defined.

(** ** Bills *)

Lemma extend_materias_nil b : extend_materias b [] = b.
Proof. destruct b. unfold extend_materias. simpl. now rewrite app_nil_r. Qed.

Lemma extend_materias_app b ms1 ms2 :
  extend_materias (extend_materias b ms1) ms2 = extend_materias b (ms1 ++ ms2).
Proof. unfold extend_materias. simpl. now rewrite app_assoc. Qed.

Lemma keys_attach_all rows d : Py.keys (attach_all rows d) = Py.keys d.
Proof.
  unfold attach_all, Py.keys. rewrite map_map. now apply map_ext.
Qed.

Lemma attach_all_absent k m d :
  ~ In k (Py.keys d) -> attach_all [(k, m)] d = d.
Proof.
  induction d as [|[k0 v0] d IH]; simpl; intros Hn; [reflexivity|].
  destruct (String.eqb_spec k k0) as [->|Hne]; [exfalso; apply Hn; now left|].
  simpl. rewrite extend_materias_nil. f_equal. apply IH. tauto.
Qed.

Lemma attach_all_entry rows k v d :
  attach_all rows ((k, v) :: d) =
  (k, extend_materias v
        (map snd (filter (fun r => String.eqb (fst r) k) rows)))
    :: attach_all rows d.
Proof. reflexivity. Qed.

Lemma set_attach k m b d :
  NoDup (Py.keys d) ->
  Py.get string_dec k d = Some b ->
  Py.set string_dec k (append_materia b m) d = attach_all [(k, m)] d.
Proof.
  induction d as [|[k0 v0] d IH]; intros Hnd Hget; [discriminate|].
  inversion Hnd as [|? ? Hnot Hnd']; subst.
  rewrite attach_all_entry. cbn [Py.set Py.get filter map fst snd] in *.
  destruct (string_dec k k0) as [->|Hne].
  - inversion Hget; subst. rewrite String.eqb_refl.
    f_equal. symmetry. exact (attach_all_absent k0 m d Hnot).
  - destruct (String.eqb_spec k k0) as [->|_]; [congruence|].
    cbn [map]. rewrite extend_materias_nil. f_equal. now apply IH.
Qed.

Lemma attach_materia_step d k m :
  NoDup (Py.keys d) ->
  attach_materia d (k, m) = Py.Ok (attach_all [(k, m)] d).
Proof.
  intros Hnd. unfold attach_materia, Py.mem, Py.getitem.
  destruct (Py.get string_dec k d) as [b|] eqn:Hget; simpl.
  - f_equal. now apply set_attach.
  - f_equal. symmetry. apply attach_all_absent.
    now apply (proj1 (get_None string_dec d k)).
Qed.

Lemma attach_all_cons r rows d :
  attach_all (r :: rows) d = attach_all rows (attach_all [r] d).
Proof.
  unfold attach_all. rewrite map_map. apply map_ext. intros [k v]. simpl.
  rewrite extend_materias_app. f_equal. f_equal.
  match goal with |- context [if ?c then _ else _] => destruct c end;
    reflexivity.
Qed.

(** The loop over the join rows never raises. *)
Lemma for_each_attach rows d :
  NoDup (Py.keys d) ->
  Py.for_each attach_materia rows d = Py.Ok (attach_all rows d).
Proof.
  revert d. induction rows as [|[k m] rows IH]; intros d Hnd;
    cbn [Py.for_each].
  - f_equal. unfold attach_all. rewrite <- (map_id d) at 1.
    apply map_ext. intros [k v]. simpl. now rewrite extend_materias_nil.
  - rewrite attach_materia_step by assumption. cbn [Py.bind].
    rewrite IH by now rewrite keys_attach_all.
    now rewrite <- attach_all_cons.
Qed.

Section FoldSet.
Context {K V R : Type} (K_dec : forall x y : K, {x = y} + {x <> y}).
Variables (key : R -> K) (val : R -> V).

Local Abbreviation fill rows d :=
  (fold_left (fun d r => Py.set K_dec (key r) (val r) d) rows d).

Lemma fold_set_NoDup rows (d : @Py.dict K V) :
  NoDup (Py.keys d) -> NoDup (Py.keys (fill rows d)).
Proof.
  revert d. induction rows as [|r rows IH]; intros d Hnd; simpl; auto.
  apply IH. now apply NoDup_keys_set.
Qed.

Lemma fold_set_entries rows (d : @Py.dict K V) k v :
  In (k, v) (fill rows d) ->
  In (k, v) d \/ exists r, In r rows /\ k = key r /\ v = val r.
Proof.
  revert d. induction rows as [|r rows IH]; intros d; simpl; auto.
  intros H. destruct (IH _ H) as [H'|(r' & Hin & Hk & Hv)].
  - destruct (in_set K_dec _ _ _ _ _ H') as [E|H'']; [|auto].
    inversion E; subst. right. exists r. auto.
  - right. exists r'. auto.
Qed.

Lemma fold_set_keys rows (d : @Py.dict K V) k :
  In k (Py.keys (fill rows d)) <-> In k (Py.keys d) \/ In k (map key rows).
Proof.
  revert d. induction rows as [|r rows IH]; intros d; simpl; [tauto|].
  rewrite IH, keys_set_in. split.
  - intros [[E|H]|H]; auto.
  - intros [H|[E|H]]; auto.
Qed.
End FoldSet.

Lemma bills_dict0_NoDup st : NoDup (Py.keys (bills_dict0 st)).
Proof. unfold bills_dict0. apply fold_set_NoDup. constructor. Qed.

Lemma bills_dict0_entries st k v :
  In (k, v) (bills_dict0 st) ->
  exists row, In row (bills st) /\ k = br_bill_id row /\ v = bill_of_row row.
Proof.
  unfold bills_dict0. intros H.
  apply fold_set_entries in H. destruct H as [[]|(r & Hin & Hk & Hv)].
  exists r. split; [|auto].
  unfold bill_rows in Hin. now apply order_by_In in Hin.
Qed.

Lemma export_bills_eq st :
  export_bills st =
  Py.Ok (Py.values (attach_all (materia_rows st) (bills_dict0 st))).
Proof.
  unfold export_bills.
  now rewrite for_each_attach by apply bills_dict0_NoDup.
Qed.

(** The bill export always returns; it has one bill per bill identity of the
    table, each built from a table row and carrying the tags of the join
    rows keyed by its identity. *)
Lemma export_bills_rows st :
  exists bs,
    export_bills st = Py.Ok bs /\
    NoDup (map b_id bs) /\
    (forall bid, In bid (map b_id bs) <-> In bid (map br_bill_id (bills st))) /\
    (forall b, In b bs ->
       exists row, In row (bills st) /\
                   bill_core b = bill_of_row row /\
                   materias b = materias_of st (b_id b)).
Proof.
  eexists. split; [apply export_bills_eq|].
  assert (Hb : forall b,
             In b (Py.values (attach_all (materia_rows st) (bills_dict0 st))) ->
             exists row, In row (bills st) /\
                         b = extend_materias (bill_of_row row)
                               (materias_of st (br_bill_id row))).
  { intros b Hin. unfold Py.values, attach_all in Hin.
    rewrite map_map in Hin. apply in_map_iff in Hin.
    destruct Hin as ([k v] & <- & Hkv). simpl.
    destruct (bills_dict0_entries st k v Hkv) as (row & Hrow & -> & ->).
    exists row. split; [assumption | reflexivity]. }
  assert (Hids : map b_id
                   (Py.values (attach_all (materia_rows st) (bills_dict0 st))) =
                 Py.keys (bills_dict0 st)).
  { unfold Py.values, Py.keys, attach_all. rewrite !map_map.
    apply map_ext_in. intros [k v] Hkv. simpl.
    destruct (bills_dict0_entries st k v Hkv) as (row & _ & -> & ->).
    reflexivity. }
  split; [rewrite Hids; apply bills_dict0_NoDup|].
  split.
  - intros bid. rewrite Hids. unfold bills_dict0.
    rewrite fold_set_keys. simpl. split.
    + intros [[]|H]. apply in_map_iff in H. destruct H as (r & <- & Hr).
      apply in_map. unfold bill_rows in Hr. now apply order_by_In in Hr.
    + intros H. right. apply in_map_iff in H. destruct H as (r & <- & Hr).
      apply in_map. unfold bill_rows. now apply order_by_In.
  - intros b Hin. destruct (Hb b Hin) as (row & Hrow & ->).
    exists row. split; [assumption|]. split; reflexivity.
Qed.

Lemma map_estado_result r etapa :
  r <> "" -> map_estado (Some r) etapa = estado_from_result r.
Proof. destruct r; [congruence | reflexivity]. Qed.

Lemma map_estado_stage resultado e :
  ~ non_empty resultado -> e <> "" ->
  map_estado resultado (Some e) = estado_from_stage e.
Proof.
  intros Hr He. destruct e; [congruence|].
  destruct resultado as [[|c r]|]; try reflexivity.
  exfalso. apply Hr. exists (String c r). split; [reflexivity | discriminate].
Qed.

Lemma map_estado_default resultado etapa :
  ~ non_empty resultado -> ~ non_empty etapa ->
  map_estado resultado etapa = "En tramitacion".
Proof.
  intros Hr He.
  destruct resultado as [[|c r]|];
    try (exfalso; apply Hr; exists (String c r); split;
         [reflexivity | discriminate]);
    destruct etapa as [[|c' e]|]; try reflexivity;
    exfalso; apply He; exists (String c' e); split;
    try reflexivity; discriminate.
Qed.

Lemma map_estado_label resultado etapa :
  In (map_estado resultado etapa) estado_labels.
Proof.
  unfold map_estado, estado_labels.
  destruct resultado as [[|c r]|]; [| |];
    repeat match goal with
           | |- context [if ?b then _ else _] => destruct b
           | |- context [match ?o with Some _ => _ | None => _ end] =>
               destruct o as [[|? ?]|]
           end;
    simpl; tauto.
Qed.

(** C3.  The bill export returns, and every exported bill comes from a row
    of the bills table whose fields fix its status by strict priority: a
    non-empty final result decides alone (Aprobado, Rechazado, Archivado,
    else "En tramitacion"), whatever the stage; with no result, a non-empty
    stage decides (first, second, third reading, in committee, else
    "En tramitacion"); with neither, the status is "En tramitacion".  The
    status is always one of the eight labels, and a final result
    "Aprobado por unanimidad" gives "Aprobado". *)
Theorem estado_by_priority st :
  exists bs,
    export_bills st = Py.Ok bs /\
    forall b, In b bs ->
      exists row,
        In row (bills st) /\ b_id b = br_bill_id row /\
        In (estado b) estado_labels /\
        (forall r, br_resultado_final row = Some r -> r <> "" ->
                   estado b = estado_from_result r) /\
        (forall e, ~ non_empty (br_resultado_final row) ->
                   br_etapa row = Some e -> e <> "" ->
                   estado b = estado_from_stage e) /\
        (~ non_empty (br_resultado_final row) ->
         ~ non_empty (br_etapa row) ->
         estado b = "En tramitacion") /\
        (br_resultado_final row = Some "Aprobado por unanimidad" ->
         estado b = "Aprobado").
Proof.
  destruct (export_bills_rows st) as (bs & Hok & _ & _ & Hrows).
  exists bs. split; [assumption|].
  intros b Hb. destruct (Hrows b Hb) as (row & Hrow & Hcore & _).
  exists row. split; [assumption|].
  assert (Hid : b_id b = br_bill_id row)
    by (change (b_id (bill_core b) = b_id (bill_of_row row)); now rewrite Hcore).
  assert (He : estado b = map_estado (br_resultado_final row) (br_etapa row))
    by (change (estado (bill_core b) = estado (bill_of_row row));
        now rewrite Hcore).
  split; [assumption|]. rewrite He.
  split; [apply map_estado_label|].
  split; [intros r -> Hr; now apply map_estado_result|].
  split; [intros e Hn -> Hne; now apply map_estado_stage|].
  split; [apply map_estado_default|].
  intros ->. reflexivity.
Qed.

(** The status of the approved bill of [demo_store] does not move when its
    stage is rewritten. *)
Example estado_aprobado_any_etapa etapa :
  map_estado (Some "Aprobado por unanimidad") etapa = "Aprobado".
Proof. reflexivity. Qed.

(** C4.  Every exported bill comes from a row of the bills table, and its
    chamber is "Senado" exactly when the origin of the row is not null and
    its lower-cased text contains "senado"; otherwise, a null origin
    included, it is "Diputados". *)
Theorem camara_from_origen st :
  exists bs,
    export_bills st = Py.Ok bs /\
    forall b, In b bs ->
      exists row,
        In row (bills st) /\ b_id b = br_bill_id row /\
        (camara b = "Senado" <->
         exists o, br_origen row = Some o /\
                   Py.contains "senado" (Py.lower o) = true) /\
        (camara b <> "Senado" -> camara b = "Diputados") /\
        (br_origen row = None -> camara b = "Diputados").
Proof.
  destruct (export_bills_rows st) as (bs & Hok & _ & _ & Hrows).
  exists bs. split; [assumption|].
  intros b Hb. destruct (Hrows b Hb) as (row & Hrow & Hcore & _).
  exists row. split; [assumption|].
  assert (Hid : b_id b = br_bill_id row)
    by (change (b_id (bill_core b) = b_id (bill_of_row row)); now rewrite Hcore).
  assert (Hc : camara b = map_camara (br_origen row))
    by (change (camara (bill_core b) = camara (bill_of_row row));
        now rewrite Hcore).
  split; [assumption|]. rewrite Hc. unfold map_camara.
  destruct (br_origen row) as [[|c o]|].
  - split; [|split; reflexivity].
    split; [discriminate|]. intros (o & E & H). inversion E; subst. discriminate.
  - destruct (Py.contains "senado" (Py.lower (String c o))) eqn:Hs.
    + split; [|split; [congruence | discriminate]].
      split; [|reflexivity]. intros _. exists (String c o). auto.
    + split; [|split; [reflexivity | discriminate]].
      split; [discriminate|]. intros (o' & E & H). inversion E; subst.
      congruence.
  - split; [|split; reflexivity].
    split; [discriminate|]. intros (o & E & _). discriminate.
Qed.

(** C10.  The bill export returns (no join row raises); the exported bills
    are exactly the bill identities of the bills table, once each, so a join
    row keyed by another identity creates no entry; and the tags of every
    exported bill are, in order, the names of the join rows keyed by its
    identity, so such a row is attached to no bill. *)
Theorem materias_only_for_exported_bills st :
  exists bs,
    export_bills st = Py.Ok bs /\
    NoDup (map b_id bs) /\
    (forall bid, In bid (map b_id bs) <-> In bid (map br_bill_id (bills st))) /\
    (forall b, In b bs -> materias b = materias_of st (b_id b)) /\
    (forall bid nombre_,
        In (bid, nombre_) (materia_rows st) ->
        ~ In bid (map br_bill_id (bills st)) ->
        ~ In bid (map b_id bs)).
Proof.
  destruct (export_bills_rows st) as (bs & Hok & Hnd & Hids & Hrows).
  exists bs. repeat split; try assumption; try apply Hids.
  - intros b Hb. destruct (Hrows b Hb) as (row & _ & _ & Hm). exact Hm.
  - intros bid nombre_ _ Hn Hin. apply Hn. now apply Hids.
Qed.

(** In [demo_store] the join row keyed by "9999-99" matches no bill: three
    bills are exported and none carries its tag twice. *)
Example materias_demo :
  export_bills demo_store =
  Py.Ok (map (fun b => extend_materias (bill_of_row b)
                         (materias_of demo_store (br_bill_id b)))
             (bill_rows demo_store)) /\
  materias_of demo_store "9999-99" = ["Educacion"] /\
  materias_of demo_store "1001-07" = ["Salud"; "Educacion"].
Proof. repeat split; reflexivity. Qed.

(** ** Recent votes *)

Lemma In_firstn {A} n (l : list A) x : In x (firstn n l) -> In x l.
Proof.
  revert l. induction n as [|n IH]; intros [|y l]; simpl; try tauto.
  intros [E|H]; [now left | right; now apply IH].
Qed.

Lemma Sorted_weaken {A} (R R' : A -> A -> Prop) l :
  (forall a b, R a b -> R' a b) -> Sorted R l -> Sorted R' l.
Proof.
  intros HR. induction 1 as [|x l Hs IH Hhd]; constructor; [assumption|].
  destruct Hhd; constructor. now apply HR.
Qed.

Lemma length_take n s :
  String.length (Py.take n s) = Nat.min n (String.length s).
Proof.
  revert s. induction n as [|n IH]; intros [|c s]; simpl; try reflexivity.
  now rewrite IH.
Qed.

Lemma prefix_take n s : prefix (Py.take n s) s = true.
Proof.
  revert s. induction n as [|n IH]; intros [|c s]; simpl; try reflexivity.
  destruct (ascii_dec c c); [apply IH | congruence].
Qed.

Lemma truncate_titulo_long t :
  100 < String.length t ->
  exists pre, String.length pre = 100 /\ prefix pre t = true /\
              truncate_titulo t = (pre ++ "...")%string.
Proof.
  intros H. exists (Py.take 100 t). split; [|split].
  - rewrite length_take. lia.
  - apply prefix_take.
  - unfold truncate_titulo.
    destruct (Nat.ltb_spec 100 (String.length t)); [reflexivity | lia].
Qed.

Lemma truncate_titulo_short t :
  String.length t <= 100 -> truncate_titulo t = t.
Proof.
  intros H. unfold truncate_titulo.
  destruct (Nat.ltb_spec 100 (String.length t)); [lia | reflexivity].
Qed.

Lemma recent_rows_bill st uid r :
  In r (recent_rows st uid) ->
  exists b voto fecha,
    In b (bills st) /\ r = (br_bill_id b, br_titulo b, voto, fecha).
Proof.
  unfold recent_rows, Sql.limit. intros H.
  apply In_firstn in H. apply order_by_In in H.
  apply in_flat_map in H. destruct H as (vp & _ & H).
  destruct (Z.eqb (vp_mp_uid vp) uid); [|contradiction].
  apply in_flat_map in H. destruct H as (sv & _ & H).
  destruct (Z.eqb _ _); [|contradiction].
  apply in_flat_map in H. destruct H as (b & Hb & H).
  destruct (String.eqb _ _); [|contradiction].
  destruct H as [<-|[]]. eauto.
Qed.

(** C5.  Every entry of the recent-vote history of an exported legislator
    shows a bill of the store: when the stored title is longer than 100
    characters the entry's title is its first 100 characters followed by
    "...", and when it has at most 100 characters it is the stored title. *)
Theorem titulo_truncated st p e :
  In p (export_parlamentarios st) ->
  In e (votaciones_recientes p) ->
  exists b,
    In b (bills st) /\ vr_bill_id e = br_bill_id b /\
    (100 < String.length (br_titulo b) ->
     exists pre, String.length pre = 100 /\ prefix pre (br_titulo b) = true /\
                 vr_titulo e = (pre ++ "...")%string) /\
    (String.length (br_titulo b) <= 100 -> vr_titulo e = br_titulo b).
Proof.
  intros Hp He.
  destruct (export_parlamentarios_fields st p Hp) as [_ Hv].
  rewrite Hv in He. apply in_map_iff in He. destruct He as (r & <- & Hr).
  destruct (recent_rows_bill st _ r Hr) as (b & voto & fecha & Hb & ->).
  exists b. simpl. split; [assumption|]. split; [reflexivity|].
  split; [apply truncate_titulo_long | apply truncate_titulo_short].
Qed.

Lemma titulo_truncated_witness :
  exists b,
    In b (bills demo_store) /\ "1001-07" = br_bill_id b /\
    (100 < String.length (br_titulo b) ->
     exists pre, String.length pre = 100 /\ prefix pre (br_titulo b) = true /\
                 truncate_titulo long_title = (pre ++ "...")%string) /\
    (String.length (br_titulo b) <= 100 ->
     truncate_titulo long_title = br_titulo b).
Proof.
  apply (titulo_truncated demo_store
           (parlamentario_of demo_store
              (1%Z, "Ana Rojas", "Partido A", Some "ana.jpg", Some "Abogada"))
           (votacion_reciente ("1001-07", long_title, "a favor", "2024-03-05"))).
  - left. reflexivity.
  - vm_compute. right. right. left. reflexivity.
Defined.

(** C6.  The recent-vote history of an exported legislator has at most 20
    entries, and each entry's date is greater than or equal to the date of
    the entry that follows it. *)
Theorem votaciones_recientes_capped_sorted st p :
  In p (export_parlamentarios st) ->
  List.length (votaciones_recientes p) <= 20 /\
  forall i e1 e2,
    nth_error (votaciones_recientes p) i = Some e1 ->
    nth_error (votaciones_recientes p) (S i) = Some e2 ->
    String.leb (vr_fecha e2) (vr_fecha e1) = true.
Proof.
  intros Hp. destruct (export_parlamentarios_fields st p Hp) as [_ ->].
  split.
  - rewrite length_map. unfold recent_rows, Sql.limit. apply firstn_le_length.
  - apply (Sorted_adjacent
             (fun a b => String.leb (vr_fecha b) (vr_fecha a) = true)).
    apply Sorted_map. unfold recent_rows, Sql.limit. apply Sorted_firstn.
    eapply Sorted_weaken; [|apply order_by_sorted].
    + intros [[[? ?] ?] ?] [[[? ?] ?] ?] H. exact H.
    + intros x y. unfold Sql.text_ge. apply String.leb_total.
Qed.

Lemma votaciones_recientes_capped_sorted_witness :
  List.length
    (votaciones_recientes
       (parlamentario_of busy_store (7%Z, "Dora Paz", "Independiente", None, None)))
  <= 20 /\
  String.leb "2023-11-30" "2024-01-15" = true.
Proof.
  destruct (votaciones_recientes_capped_sorted demo_store
              (parlamentario_of demo_store
                 (1%Z, "Ana Rojas", "Partido A", Some "ana.jpg", Some "Abogada"))
              (or_introl eq_refl)) as [_ Hsorted].
  destruct (votaciones_recientes_capped_sorted busy_store
              (parlamentario_of busy_store
                 (7%Z, "Dora Paz", "Independiente", None, None))
              (or_introl eq_refl)) as [Hcap _].
  split; [exact Hcap|].
  exact (Hsorted 3
           (votacion_reciente ("1001-07", long_title, "nulo", "2024-01-15"))
           (votacion_reciente ("1003-04", "Reforma", "a favor", "2023-11-30"))
           eq_refl eq_refl).
Defined.

(** With twenty-five votes in the store the history stops at twenty. *)
Example votaciones_recientes_cap_reached :
  map (fun p => List.length (votaciones_recientes p))
      (export_parlamentarios busy_store) = [20].
Proof. vm_compute. reflexivity. Qed.

(** ** Party metadata *)

Lemma members_of_cons k p ps :
  members_of k (p :: ps) =
  (if party_key_dec (Some (partido p)) k then 1 else 0) + members_of k ps.
Proof.
  unfold members_of. cbn [filter].
  destruct (party_key_dec (Some (partido p)) k); reflexivity.
Qed.

Lemma members_of_positive p ps :
  In p ps -> members_of (Some (partido p)) ps <> 0.
Proof.
  induction ps as [|q ps IH]; [contradiction|].
  intros [->|Hin]; rewrite members_of_cons.
  - destruct (party_key_dec (Some (partido p)) (Some (partido p)));
      [simpl; lia | congruence].
  - specialize (IH Hin). lia.
Qed.

(** The member-count loop never raises: an entry present before the loop
    gains the members that carry its name, and a name absent before the
    loop gets a synthetic entry as soon as one member carries it. *)
Lemma count_member_loop ps : forall d,
  exists d',
    Py.for_each count_member ps d = Py.Ok d' /\
    forall k,
      Py.get party_key_dec k d' =
      match Py.get party_key_dec k d with
      | Some e => Some {| sigla := sigla e;
                          miembros := miembros e + members_of k ps;
                          cohesion := cohesion e |}
      | None => if Nat.eqb (members_of k ps) 0 then None
                else Some {| sigla := Some "";
                             miembros := members_of k ps;
                             cohesion := cohesion_synthetic |}
      end.
Proof.
  induction ps as [|p ps IH]; intros d.
  - exists d. split; [reflexivity|]. intros k.
    destruct (Py.get party_key_dec k d) as [[sg m co]|]; [|reflexivity].
    simpl. now rewrite Nat.add_0_r.
  - cbn [Py.for_each]. unfold count_member at 1, Py.mem, Py.getitem.
    destruct (Py.get party_key_dec (Some (partido p)) d) as [e|] eqn:Hg;
      cbn [Py.bind];
      match goal with
      | |- context [Py.for_each count_member ps ?d1] =>
          destruct (IH d1) as (d' & Hok & Hget)
      end;
      exists d'; (split; [exact Hok|]); intros k; rewrite Hget;
      rewrite members_of_cons;
      destruct (party_key_dec (Some (partido p)) k) as [<-|Hne].
    + rewrite get_set_eq, Hg. cbn [sigla miembros cohesion].
      do 2 f_equal. lia.
    + rewrite get_set_neq by assumption. reflexivity.
    + rewrite get_set_eq, Hg. cbn [sigla miembros cohesion].
      reflexivity.
    + rewrite get_set_neq by assumption. reflexivity.
Qed.

Section DirectoryFill.

Local Abbreviation fill_stats items acc :=
  (fold_left (fun ps (item : Z * (option string * option string)) =>
                let (_, info) := item in
                Py.set party_key_dec (fst info)
                       {| sigla := snd info; miembros := 0;
                          cohesion := cohesion_directory |} ps)
             items acc).

Lemma fill_stats_absent k : forall its acc,
  ~ In k (map fst (Py.values its)) ->
  Py.get party_key_dec k (fill_stats its acc) = Py.get party_key_dec k acc.
Proof.
  induction its as [|[i [n sg]] its IH]; intros acc Hn; simpl in *; auto.
  rewrite IH by tauto. apply get_set_neq. intros E. apply Hn. now left.
Qed.

Lemma fill_stats_present k : forall its acc,
  In k (map fst (Py.values its)) ->
  exists sg,
    In (k, sg) (Py.values its) /\
    Py.get party_key_dec k (fill_stats its acc) =
    Some {| sigla := sg; miembros := 0; cohesion := cohesion_directory |}.
Proof.
  induction its as [|[i [n sg]] its IH]; intros acc Hin; simpl in *;
    [contradiction|].
  destruct (in_dec party_key_dec k (map fst (Py.values its))) as [Hl|Hl].
  - destruct (IH (Py.set party_key_dec n
                    {| sigla := sg; miembros := 0;
                       cohesion := cohesion_directory |} acc) Hl)
      as (sg' & Hsg & Hget).
    exists sg'. split; [now right | exact Hget].
  - destruct Hin as [<-|Hin]; [|contradiction].
    exists sg. split; [now left|].
    rewrite fill_stats_absent by assumption. apply get_set_eq.
Qed.
End DirectoryFill.

Lemma party_stats0_present st k :
  In k (directory_names st) ->
  exists sg,
    In (k, sg) (directory st) /\
    Py.get party_key_dec k (party_stats0 st) =
    Some {| sigla := sg; miembros := 0; cohesion := cohesion_directory |}.
Proof. apply fill_stats_present. Qed.

Lemma party_stats0_absent st k :
  ~ In k (directory_names st) ->
  Py.get party_key_dec k (party_stats0 st) = None.
Proof. intros H. unfold party_stats0. now rewrite fill_stats_absent. Qed.

Lemma set_fresh {K V} (K_dec : forall x y : K, {x = y} + {x <> y})
      (d : @Py.dict K V) k v :
  ~ In k (Py.keys d) -> Py.set K_dec k v d = d ++ [(k, v)].
Proof.
  induction d as [|[k0 v0] d IH]; simpl; intros Hn; [reflexivity|].
  destruct (K_dec k k0) as [->|Hne]; [exfalso; apply Hn; now left|].
  f_equal. apply IH. tauto.
Qed.

(** When partido_id is a key of the directory table, the directory the
    exporter loads is the table itself, row by row. *)
Lemma directory_is_table st :
  NoDup (map pa_partido_id (dim_partidos st)) ->
  directory st =
  map (fun r => (pa_nombre_partido r, pa_sigla r)) (dim_partidos st).
Proof.
  unfold directory, partidos.
  assert (H : forall rows (d : @Py.dict Z (option string * option string)),
             NoDup (Py.keys d ++ map pa_partido_id rows) ->
             fold_left (fun d row =>
                          Py.set Z.eq_dec (pa_partido_id row)
                                 (pa_nombre_partido row, pa_sigla row) d)
                       rows d =
             d ++ map (fun r => (pa_partido_id r,
                                 (pa_nombre_partido r, pa_sigla r))) rows).
  { induction rows as [|r rows IH]; intros d Hnd; simpl.
    - now rewrite app_nil_r.
    - simpl in Hnd. pose proof (NoDup_remove _ _ _ Hnd) as [Hnd' Hnot].
      rewrite set_fresh by (intros Hin; apply Hnot; apply in_or_app; now left).
      rewrite IH.
      + now rewrite <- app_assoc.
      + unfold Py.keys. rewrite map_app. simpl. rewrite <- app_assoc. exact Hnd. }
  intros Hnd. rewrite (H _ [] Hnd). simpl.
  unfold Py.values. rewrite map_map. reflexivity.
Qed.

(** The entries in terms of the directory as the exporter loads it: a name
    of the loaded directory has an entry with an abbreviation the loaded
    directory gives for it, cohesion 0.85 and its member count; a
    legislator's party name outside the loaded directory has a synthetic
    entry with its member count. *)
Lemma party_entries_loaded st ps bills_ :
  exists md,
    export_metadata st ps bills_ = Py.Ok md /\
    (forall name,
        In name (directory_names st) ->
        exists sg,
          In (name, sg) (directory st) /\
          Py.get party_key_dec name (md_partidos md) =
          Some {| sigla := sg; miembros := members_of name ps;
                  cohesion := (85 # 100)%Q |}) /\
    (forall p,
        In p ps ->
        ~ In (Some (partido p)) (directory_names st) ->
        Py.get party_key_dec (Some (partido p)) (md_partidos md) =
        Some {| sigla := Some "";
                miembros := members_of (Some (partido p)) ps;
                cohesion := (80 # 100)%Q |}).
Proof.
  unfold export_metadata.
  destruct (count_member_loop ps (party_stats0 st)) as (d' & Hok & Hget).
  rewrite Hok. cbn [Py.bind]. eexists. split; [reflexivity|].
  cbn [md_partidos]. split.
  - intros name Hin.
    destruct (party_stats0_present st name Hin) as (sg & Hsg & H0).
    exists sg. split; [assumption|]. rewrite Hget, H0. reflexivity.
  - intros p Hp Hn. rewrite Hget, (party_stats0_absent st _ Hn).
    destruct (Nat.eqb_spec (members_of (Some (partido p)) ps) 0) as [E|_];
      [|reflexivity].
    exfalso. exact (members_of_positive p ps Hp E).
Qed.

(** C7.  When partido_id is a key of the party directory table, the
    metadata export returns for every list of legislators, and:
    every row of the table has an entry under its party name, with the
    abbreviation of a table row of that name, cohesion 0.85 and as many
    members as there are legislators with exactly that name; when the
    table gives one abbreviation for the name, that is the entry's
    abbreviation; and every legislator whose party name is the name of no
    table row has a synthetic entry under that name, with empty
    abbreviation, cohesion 0.80 and as many members as there are
    legislators with that name. *)
Theorem party_entries st ps bills_ :
  NoDup (map pa_partido_id (dim_partidos st)) ->
  exists md,
    export_metadata st ps bills_ = Py.Ok md /\
    (forall r,
        In r (dim_partidos st) ->
        exists r',
          In r' (dim_partidos st) /\
          pa_nombre_partido r' = pa_nombre_partido r /\
          Py.get party_key_dec (pa_nombre_partido r) (md_partidos md) =
          Some {| sigla := pa_sigla r';
                  miembros := members_of (pa_nombre_partido r) ps;
                  cohesion := (85 # 100)%Q |}) /\
    (forall r,
        In r (dim_partidos st) ->
        (forall r', In r' (dim_partidos st) ->
                    pa_nombre_partido r' = pa_nombre_partido r ->
                    pa_sigla r' = pa_sigla r) ->
        Py.get party_key_dec (pa_nombre_partido r) (md_partidos md) =
        Some {| sigla := pa_sigla r;
                miembros := members_of (pa_nombre_partido r) ps;
                cohesion := (85 # 100)%Q |}) /\
    (forall p,
        In p ps ->
        (forall r, In r (dim_partidos st) ->
                   pa_nombre_partido r <> Some (partido p)) ->
        Py.get party_key_dec (Some (partido p)) (md_partidos md) =
        Some {| sigla := Some "";
                miembros := members_of (Some (partido p)) ps;
                cohesion := (80 # 100)%Q |}).
Proof.
  intros Hkey.
  destruct (party_entries_loaded st ps bills_) as (md & Hok & Hdir & Hsyn).
  pose proof (directory_is_table st Hkey) as Htab.
  assert (Hnames : forall k, In k (directory_names st) <->
                             exists r, In r (dim_partidos st) /\
                                       pa_nombre_partido r = k).
  { intros k. unfold directory_names. rewrite Htab, map_map. simpl.
    rewrite in_map_iff. split; intros (r & H1 & H2); exists r; auto. }
  assert (Hrow : forall r,
             In r (dim_partidos st) ->
             exists r',
               In r' (dim_partidos st) /\
               pa_nombre_partido r' = pa_nombre_partido r /\
               Py.get party_key_dec (pa_nombre_partido r) (md_partidos md) =
               Some {| sigla := pa_sigla r';
                       miembros := members_of (pa_nombre_partido r) ps;
                       cohesion := (85 # 100)%Q |}).
  { intros r Hr.
    destruct (Hdir (pa_nombre_partido r)) as (sg & Hsg & Hget);
      [apply Hnames; eauto|].
    rewrite Htab in Hsg. apply in_map_iff in Hsg.
    destruct Hsg as (r' & E & Hr'). injection E as En Es.
    exists r'. split; [exact Hr'|]. split; [exact En|].
    rewrite Es. exact Hget. }
  exists md. split; [exact Hok|]. split; [exact Hrow|]. split.
  - intros r Hr Huniq. destruct (Hrow r Hr) as (r' & Hr' & En & Hget).
    rewrite <- (Huniq r' Hr' En). exact Hget.
  - intros p Hp Hnone. apply Hsyn; [assumption|].
    intros Hin. apply Hnames in Hin. destruct Hin as (r & Hr & En).
    exact (Hnone r Hr En).
Qed.

Lemma party_entries_witness :
  NoDup (map pa_partido_id (dim_partidos demo_store)) /\
  exists md,
    export_metadata demo_store (export_parlamentarios demo_store) [] =
      Py.Ok md /\
    Py.get party_key_dec (Some "Partido A") (md_partidos md) =
      Some {| sigla := Some "PA"; miembros := 1; cohesion := (85 # 100)%Q |} /\
    Py.get party_key_dec (Some "Independiente") (md_partidos md) =
      Some {| sigla := Some ""; miembros := 2; cohesion := (80 # 100)%Q |}.
Proof.
  assert (Hkey : NoDup (map pa_partido_id (dim_partidos demo_store)))
    by (change (NoDup (nodup Z.eq_dec [10%Z; 11%Z; 12%Z])); apply NoDup_nodup).
  split; [exact Hkey|].
  destruct (party_entries demo_store (export_parlamentarios demo_store) []
              Hkey) as (md & Hok & _ & Hrow & Hsyn).
  exists md. split; [exact Hok|]. split.
  - apply (Hrow {| pa_partido_id := 10; pa_nombre_partido := Some "Partido A";
                   pa_sigla := Some "PA" |}).
    + left. reflexivity.
    + intros r' [<-|[<-|[<-|[]]]] E; try reflexivity; discriminate E.
  - apply (Hsyn (parlamentario_of demo_store
                   (2%Z, "Beto Soto", "Independiente", None, None))).
    + right. left. reflexivity.
    + intros r [<-|[<-|[<-|[]]]]; discriminate.
Defined.

(** Without the key the table and the loaded directory part ways: in
    [recoded_store] two rows share partido_id 10, the second replaces the
    first when the directory is loaded, and "Partido A", a name of the
    table, ends with a synthetic entry. *)
Example party_entries_need_key :
  option_map md_partidos
    (match export_metadata recoded_store
             (export_parlamentarios recoded_store) [] with
     | Py.Ok md => Some md
     | Py.Raise _ => None
     end) =
  Some [ (Some "Partido B",
          {| sigla := Some "PB"; miembros := 1; cohesion := (85 # 100)%Q |});
         (Some "Partido A",
          {| sigla := Some ""; miembros := 1; cohesion := (80 # 100)%Q |});
         (Some "Independiente",
          {| sigla := Some ""; miembros := 2; cohesion := (80 # 100)%Q |}) ].
Proof. vm_compute. reflexivity. Qed.

(** On [demo_store]: "Partido A" has one member, "Partido B" none, the
    directory record without a name none, and the two legislators without
    a directory party share the synthetic entry "Independiente". *)
Example party_entries_demo :
  option_map md_partidos
    (match export_metadata demo_store (export_parlamentarios demo_store) [] with
     | Py.Ok md => Some md
     | Py.Raise _ => None
     end) =
  Some [ (Some "Partido A",
          {| sigla := Some "PA"; miembros := 1; cohesion := (85 # 100)%Q |});
         (Some "Partido B",
          {| sigla := Some "PB"; miembros := 0; cohesion := (85 # 100)%Q |});
         (None,
          {| sigla := None; miembros := 0; cohesion := (85 # 100)%Q |});
         (Some "Independiente",
          {| sigla := Some ""; miembros := 2; cohesion := (80 # 100)%Q |}) ].
Proof. vm_compute. reflexivity. Qed.

(** ** Embeddings *)

Lemma map_m_ok {X Y} (f : X -> Py.result Y) xs : forall ys,
  Py.map_m f xs = Py.Ok ys -> Forall2 (fun x y => f x = Py.Ok y) xs ys.
Proof.
  induction xs as [|x xs IH]; simpl; intros ys H.
  - inversion H. constructor.
  - destruct (f x) as [y|e] eqn:Hx; simpl in H; [|discriminate].
    destruct (Py.map_m f xs) as [ys'|e]; simpl in H; [|discriminate].
    inversion H; subst. constructor; [assumption | now apply IH].
Qed.

Lemma map_m_raise {X Y} (f : X -> Py.result Y) xs e :
  Py.map_m f xs = Py.Raise e -> exists x, In x xs /\ f x = Py.Raise e.
Proof.
  induction xs as [|x xs IH]; simpl; intros H; [discriminate|].
  destruct (f x) as [y|e'] eqn:Hx; simpl in H.
  - destruct (Py.map_m f xs) as [ys'|e'']; simpl in H; [discriminate|].
    inversion H; subst. destruct (IH eq_refl) as (x' & Hin & Hx').
    exists x'. auto.
  - inversion H; subst. exists x. auto.
Qed.

Lemma embedding_of_row_ok json_loads row e :
  embedding_of_row json_loads row = Py.Ok e ->
  billId e = em_bill_id row /\
  json_loads (em_embedding row) = Some (embedding e).
Proof.
  destruct row as [bid text m dim]. simpl.
  destruct (json_loads text) as [v|]; [|discriminate].
  intros H. inversion H. auto.
Qed.

Lemma embedding_of_row_raise json_loads row e :
  embedding_of_row json_loads row = Py.Raise e ->
  e = Py.JSONDecodeError /\ json_loads (em_embedding row) = None.
Proof.
  destruct row as [bid text m dim]. simpl.
  destruct (json_loads text) as [v|]; [discriminate|].
  intros H. inversion H. auto.
Qed.

Lemma map_m_embedding_ext json_loads rows : forall rows',
  map (fun r => (em_bill_id r, em_embedding r)) rows' =
  map (fun r => (em_bill_id r, em_embedding r)) rows ->
  Py.map_m (embedding_of_row json_loads) rows' =
  Py.map_m (embedding_of_row json_loads) rows.
Proof.
  induction rows as [|r rows IH]; intros [|r' rows'] H; try discriminate;
    [reflexivity|].
  simpl in H. inversion H as [[Hid Htext Hrest]].
  cbn [Py.map_m]. rewrite (IH _ Hrest).
  destruct r, r'. simpl in Hid, Htext. subst. reflexivity.
Qed.

(** C8.  When every stored payload parses, the embedding export returns one
    record per row of the table, in order, with the row's bill identity and
    the parsed payload as it is; the descriptor names the model
    "all-MiniLM-L6-v2" with dimension 384 and counts the exported records.
    Otherwise some payload does not parse and the export raises.  Rewriting
    the model_name and embedding_dimension columns changes nothing. *)
Theorem embeddings_passthrough json_loads st :
  match export_embeddings json_loads st with
  | Py.Ok (embeddings, meta) =>
      Forall2 (fun row e =>
                 billId e = em_bill_id row /\
                 json_loads (em_embedding row) = Some (embedding e))
              (bill_embeddings st) embeddings /\
      model meta = "all-MiniLM-L6-v2" /\
      dimension meta = 384%Z /\
      count meta = List.length embeddings
  | Py.Raise e =>
      e = Py.JSONDecodeError /\
      exists row, In row (bill_embeddings st) /\
                  json_loads (em_embedding row) = None
  end /\
  forall st',
    map (fun r => (em_bill_id r, em_embedding r)) (bill_embeddings st') =
    map (fun r => (em_bill_id r, em_embedding r)) (bill_embeddings st) ->
    export_embeddings json_loads st' = export_embeddings json_loads st.
Proof.
  unfold export_embeddings. split.
  - destruct (Py.map_m (embedding_of_row json_loads) (bill_embeddings st))
      as [embs|e] eqn:Hm; cbn [Py.bind].
    + split; [|repeat split].
      apply map_m_ok in Hm. induction Hm; constructor; [|assumption].
      now apply embedding_of_row_ok.
    + apply map_m_raise in Hm. destruct Hm as (row & Hin & Hrow).
      apply embedding_of_row_raise in Hrow. destruct Hrow as [-> Hnone].
      split; [reflexivity|]. exists row. auto.
  - intros st' H. now rewrite (map_m_embedding_ext json_loads _ _ H).
Qed.

(** On [demo_store] the first row records another model and dimension 2;
    the descriptor still says "all-MiniLM-L6-v2" and 384. *)
Example embeddings_demo :
  export_embeddings demo_loads demo_store =
  Py.Ok ([ {| billId := "1001-07"; embedding := JStr "[0.5, 0.25]" |};
           {| billId := "1002-11"; embedding := JStr "[1, 0]" |} ],
         {| model := "all-MiniLM-L6-v2"; dimension := 384; count := 2 |}).
Proof. reflexivity. Qed.

(** ** The whole run *)

Ltac dict_lookup :=
  repeat first
    [ rewrite get_set_eq
    | rewrite get_set_neq by (apply String.eqb_neq; reflexivity) ].

(** C9.  Two runs that start from the same store, whatever the clock, the
    hash seed and the files already present, end the same way, leave the
    store as it was and, when they complete, leave the same contents in the
    four output files.  In particular a second run after a first one writes
    the four files again with identical contents. *)
Theorem export_deterministic json_loads json_dumps w1 w2 :
  store w1 = store w2 ->
  snd (main json_loads json_dumps w1) = snd (main json_loads json_dumps w2) /\
  store (fst (main json_loads json_dumps w1)) = store w1 /\
  (snd (main json_loads json_dumps w1) = Py.Ok tt ->
   forall path, In path output_files ->
     read_file path (fst (main json_loads json_dumps w1)) <> None /\
     read_file path (fst (main json_loads json_dumps w1)) =
     read_file path (fst (main json_loads json_dumps w2)) /\
     read_file path
       (fst (main json_loads json_dumps (fst (main json_loads json_dumps w1)))) =
     read_file path (fst (main json_loads json_dumps w1))).
Proof.
  intros Hst.
  assert (Hstore : forall w, store (fst (main json_loads json_dumps w)) = store w).
  { intros w. unfold main.
    destruct (export_bills (store w)); [|reflexivity].
    destruct (export_embeddings json_loads (store w)) as [[? ?]|];
      [|reflexivity].
    destruct (export_metadata (store w) _ _); reflexivity. }
  assert (Hfiles : forall wa wb,
             store wa = store wb ->
             snd (main json_loads json_dumps wa) =
             snd (main json_loads json_dumps wb) /\
             (snd (main json_loads json_dumps wa) = Py.Ok tt ->
              forall path, In path output_files ->
                read_file path (fst (main json_loads json_dumps wa)) <> None /\
                read_file path (fst (main json_loads json_dumps wa)) =
                read_file path (fst (main json_loads json_dumps wb)))).
  { intros wa wb E. unfold main. rewrite E.
    destruct (export_bills (store wb)); [|split; [reflexivity | discriminate]].
    destruct (export_embeddings json_loads (store wb)) as [[? ?]|];
      [|split; [reflexivity | discriminate]].
    destruct (export_metadata (store wb) _ _);
      [|split; [reflexivity | discriminate]].
    split; [reflexivity|]. intros _ path Hpath.
    unfold read_file, write_file. cbn [fst files].
    simpl in Hpath.
    destruct Hpath as [<-|[<-|[<-|[<-|[]]]]]; dict_lookup;
      (split; [discriminate | reflexivity]). }
  destruct (Hfiles w1 w2 Hst) as [Hr Hf].
  split; [exact Hr|]. split; [apply Hstore|].
  intros Hok path Hpath.
  destruct (Hf Hok path Hpath) as [Hsome Heq].
  split; [exact Hsome|]. split; [exact Heq|].
  symmetry.
  exact (proj2 (proj2 (Hfiles w1 (fst (main json_loads json_dumps w1))
                         (eq_sym (Hstore w1))) Hok path Hpath)).
Qed.

Lemma export_deterministic_witness :
  store (demo_world [] 0 0) =
  store (demo_world [("bills.json", "stale"); ("notes.txt", "keep")] 1700 42) /\
  snd (main demo_loads demo_dumps (demo_world [] 0 0)) = Py.Ok tt /\
  read_file "embeddings.json"
            (fst (main demo_loads demo_dumps (demo_world [] 0 0))) =
  read_file "embeddings.json"
            (fst (main demo_loads demo_dumps
                    (demo_world [("bills.json", "stale"); ("notes.txt", "keep")]
                                1700 42))).
Proof.
  split; [reflexivity|]. split; [reflexivity|].
  exact (proj1 (proj2
           (proj2 (proj2 (export_deterministic demo_loads demo_dumps
                            (demo_world [] 0 0)
                            (demo_world [("bills.json", "stale");
                                         ("notes.txt", "keep")] 1700 42)
                            eq_refl))
              eq_refl "embeddings.json"
              (or_intror (or_intror (or_introl eq_refl)))))).
Defined.

(** * Further properties of the exporter *)

(** ** Vote statistics *)

Lemma active_rows_eq st :
  active_rows st =
  Sql.order_by
    (fun r1 r2 : ActiveRow =>
       match r1, r2 with
       | (_, n1, _, _, _), (_, n2, _, _, _) => Sql.text_le n1 n2
       end)
    (Sql.distinct ActiveRow_dec (active_join st)).
Proof. reflexivity. Qed.

Lemma recent_rows_eq st uid :
  recent_rows st uid =
  Sql.limit 20
    (Sql.order_by
       (fun r1 r2 => Sql.text_ge (recent_fecha r1) (recent_fecha r2))
       (recent_join st uid)).
Proof. reflexivity. Qed.

Lemma count_occ_le_records_in c votos l :
  in_category c l = true -> count_occ string_dec votos l <= records_in c votos.
Proof.
  intros Hc. unfold records_in.
  induction votos as [|v votos IH]; simpl; [lia|].
  destruct (string_dec v l) as [->|Hne].
  - rewrite Hc. simpl. lia.
  - destruct (in_category c v); simpl; lia.
Qed.

Lemma in_category_unique c1 c2 l :
  in_category c1 l = true -> in_category c2 l = true -> c1 = c2.
Proof.
  unfold in_category.
  destruct (option_Category_dec (classify l) (Some c1)) as [E1|]; [|discriminate].
  destruct (option_Category_dec (classify l) (Some c2)) as [E2|]; [|discriminate].
  congruence.
Qed.

Lemma category_at_most_one v :
  (if in_category Favor v then 1 else 0) +
  (if in_category Contra v then 1 else 0) +
  (if in_category Absten v then 1 else 0) +
  (if in_category Pareo v then 1 else 0) <= 1.
Proof.
  unfold in_category. destruct (classify v) as [[]|]; cbv; lia.
Qed.

Lemma records_in_cons c v votos :
  records_in c (v :: votos) =
  (if in_category c v then 1 else 0) + records_in c votos.
Proof.
  unfold records_in. cbn [filter]. now destruct (in_category c v).
Qed.

Lemma records_in_sum_le votos :
  records_in Favor votos + records_in Contra votos +
  records_in Absten votos + records_in Pareo votos <= List.length votos.
Proof.
  induction votos as [|v votos IH]; [cbv; lia|].
  rewrite !records_in_cons. cbn [List.length].
  pose proof (category_at_most_one v). lia.
Qed.

(** X1.  For an exported legislator and each of the four categories: either
    none of the legislator's vote records is in the category and the tally
    is 0, or the tally is the number of records that carry one particular
    label of the category.  So a tally never exceeds the number of records
    of its category, and the total, the sum of the four tallies, never
    exceeds the number of the legislator's vote records. *)
Theorem tally_counts_one_label st p :
  In p (export_parlamentarios st) ->
  (forall c,
      (records_in c (votos_of st (id p)) = 0 /\
       stat c (ev_stats (estadisticas_voto p)) = 0) \/
      (exists l, In l (votos_of st (id p)) /\ in_category c l = true /\
                 stat c (ev_stats (estadisticas_voto p)) =
                 count_occ string_dec (votos_of st (id p)) l)) /\
  (forall c, stat c (ev_stats (estadisticas_voto p)) <=
             records_in c (votos_of st (id p))) /\
  total (estadisticas_voto p) =
    a_favor (ev_stats (estadisticas_voto p)) +
    en_contra (ev_stats (estadisticas_voto p)) +
    abstencion (ev_stats (estadisticas_voto p)) +
    pareo (ev_stats (estadisticas_voto p)) /\
  total (estadisticas_voto p) <= List.length (votos_of st (id p)).
Proof.
  intros Hp. destruct (export_parlamentarios_fields st p Hp) as [-> _].
  unfold vote_stats. cbn [ev_stats total].
  set (votos := votos_of st (id p)).
  assert (Hone : forall c,
             (records_in c votos = 0 /\
              stat c (tally (group_by_voto votos)) = 0) \/
             (exists l, In l votos /\ in_category c l = true /\
                        stat c (tally (group_by_voto votos)) =
                        count_occ string_dec votos l)).
  { intros c. unfold tally, group_by_voto. rewrite tally_last.
    destruct (last_count c _) as [m|] eqn:E.
    - right. apply last_count_some in E. destruct E as (l & Hin & Hc & ->).
      exists l. split; [now apply (proj1 (group_by_voto_labels _ _))|].
      split; [assumption | reflexivity].
    - left. split; [|now destruct c].
      apply records_in_none. intros l Hl.
      eapply last_count_none; [exact E|].
      now apply (proj2 (group_by_voto_labels _ _)). }
  assert (Hle : forall c, stat c (tally (group_by_voto votos)) <=
                          records_in c votos).
  { intros c. destruct (Hone c) as [[_ ->]|(l & _ & Hc & ->)]; [lia|].
    now apply count_occ_le_records_in. }
  split; [exact Hone|]. split; [exact Hle|]. split; [reflexivity|].
  unfold sum_stats.
  pose proof (Hle Favor). pose proof (Hle Contra).
  pose proof (Hle Absten). pose proof (Hle Pareo).
  pose proof (records_in_sum_le votos). simpl in *. lia.
Qed.

Lemma tally_counts_one_label_witness :
  stat Favor
       (ev_stats (estadisticas_voto
          (parlamentario_of demo_store
             (2%Z, "Beto Soto", "Independiente", None, None)))) <=
  records_in Favor (votos_of demo_store 2%Z) /\
  total (estadisticas_voto
           (parlamentario_of demo_store
              (2%Z, "Beto Soto", "Independiente", None, None))) <=
  List.length (votos_of demo_store 2%Z).
Proof.
  pose proof (tally_counts_one_label demo_store
                (parlamentario_of demo_store
                   (2%Z, "Beto Soto", "Independiente", None, None))
                (or_intror (or_introl eq_refl))) as H.
  split; [exact (proj1 (proj2 H) Favor) | exact (proj2 (proj2 (proj2 H)))].
Defined.

(** X2.  Replacing spaces by underscores in the lower-cased label changes
    nothing: the tally that a grouped row updates is fixed by the first of
    "favor", "contra", "absten", "pareo" that the lower-cased label itself
    contains, and a row whose label contains none leaves the tallies as they
    are. *)
Theorem tally_step_ignores_replacement s voto n :
  (forall c, in_category c voto = true ->
             stat c (tally_step s (voto, n)) = n /\
             forall c', c' <> c ->
                        stat c' (tally_step s (voto, n)) = stat c' s) /\
  (classify voto = None -> tally_step s (voto, n) = s).
Proof.
  split.
  - intros c Hc. split.
    + rewrite stat_tally_step. now rewrite Hc.
    + intros c' Hne. rewrite stat_tally_step.
      destruct (in_category c' voto) eqn:Hc'; [|reflexivity].
      exfalso. apply Hne. eapply in_category_unique; eassumption.
  - intros Hn. rewrite tally_step_classify. now rewrite Hn.
Qed.

(** ** Which legislators are exported, and in what order *)

Lemma left_join_partido_in st pr d :
  In d (left_join_partido st pr) <->
  (d = None /\
   forall r, In r (dim_partidos st) ->
             pr_partido_militante_actual_id pr <> Some (pa_partido_id r)) \/
  (exists r, d = Some r /\ In r (dim_partidos st) /\
             pr_partido_militante_actual_id pr = Some (pa_partido_id r)).
Proof.
  unfold left_join_partido.
  set (f := fun d0 => match pr_partido_militante_actual_id pr with
                      | Some i => Z.eqb i (pa_partido_id d0)
                      | None => false
                      end).
  assert (Hf : forall r, f r = true <->
                         pr_partido_militante_actual_id pr =
                         Some (pa_partido_id r)).
  { intros r. unfold f. destruct (pr_partido_militante_actual_id pr) as [i|].
    - rewrite Z.eqb_eq. split; congruence.
    - split; discriminate. }
  destruct (filter f (dim_partidos st)) as [|r0 rs] eqn:E.
  - split.
    + intros [<-|[]]. left. split; [reflexivity|].
      intros r Hr Hm. apply Hf in Hm.
      assert (Hin : In r (filter f (dim_partidos st)))
        by (apply filter_In; auto).
      rewrite E in Hin. contradiction.
    + intros [[-> _]|(r & -> & Hr & Hm)]; [now left|].
      apply Hf in Hm.
      assert (Hin : In r (filter f (dim_partidos st)))
        by (apply filter_In; auto).
      rewrite E in Hin. contradiction.
  - rewrite <- E. split.
    + intros H. right. apply in_map_iff in H. destruct H as (r & <- & Hr).
      apply filter_In in Hr. destruct Hr as [Hr Hm].
      exists r. split; [reflexivity|]. split; [assumption | now apply Hf].
    + intros [[-> Hn]|(r & -> & Hr & Hm)].
      * exfalso. apply (Hn r0).
        -- assert (Hin : In r0 (filter f (dim_partidos st)))
             by (rewrite E; now left).
           now apply filter_In in Hin.
        -- apply Hf.
           assert (Hin : In r0 (filter f (dim_partidos st)))
             by (rewrite E; now left).
           now apply filter_In in Hin.
      * apply in_map. apply filter_In. split; [assumption | now apply Hf].
Qed.

Lemma left_join_partido_nonempty st pr :
  exists d, In d (left_join_partido st pr).
Proof.
  unfold left_join_partido.
  destruct (filter _ (dim_partidos st)) as [|r rs];
    [exists None | exists (Some r)]; now left.
Qed.

Lemma active_join_in st row :
  In row (active_join st) <->
  exists pr vp sv d,
    In pr (dim_parlamentario st) /\ In vp (votos_parlamentario st) /\
    In sv (sesiones_votacion st) /\
    pr_mp_uid pr = vp_mp_uid vp /\
    vp_sesion_votacion_id vp = sv_sesion_votacion_id sv /\
    String.leb "2024-01-01" (sv_fecha sv) = true /\
    In d (left_join_partido st pr) /\
    row = (pr_mp_uid pr, pr_nombre_completo pr, coalesce_partido d,
           pr_url_foto pr, pr_profesion pr).
Proof.
  unfold active_join. split.
  - intros H. apply in_flat_map in H. destruct H as (pr & Hpr & H).
    apply in_flat_map in H. destruct H as (vp & Hvp & H).
    destruct (Z.eqb_spec (pr_mp_uid pr) (vp_mp_uid vp)) as [Eu|];
      [|contradiction].
    apply in_flat_map in H. destruct H as (sv & Hsv & H).
    destruct (Z.eqb_spec (vp_sesion_votacion_id vp) (sv_sesion_votacion_id sv))
      as [Es|]; [|contradiction].
    unfold Sql.text_ge in H.
    destruct (String.leb "2024-01-01" (sv_fecha sv)) eqn:Ef; [|contradiction].
    simpl in H. apply in_map_iff in H. destruct H as (d & <- & Hd).
    exists pr, vp, sv, d. repeat split; assumption.
  - intros (pr & vp & sv & d & Hpr & Hvp & Hsv & Eu & Es & Ef & Hd & ->).
    apply in_flat_map. exists pr. split; [assumption|].
    apply in_flat_map. exists vp. split; [assumption|].
    rewrite (proj2 (Z.eqb_eq _ _) Eu).
    apply in_flat_map. exists sv. split; [assumption|].
    rewrite (proj2 (Z.eqb_eq _ _) Es). unfold Sql.text_ge. rewrite Ef.
    simpl. apply in_map_iff. exists d. split; [reflexivity | assumption].
Qed.

Lemma active_rows_in st row : In row (active_rows st) <-> In row (active_join st).
Proof. rewrite active_rows_eq. now rewrite order_by_In, distinct_In. Qed.

Lemma id_parlamentario_of st row :
  id (parlamentario_of st row) = fst (fst (fst (fst row))).
Proof. now destruct row as [[[[? ?] ?] ?] ?]. Qed.

(** X3.  A legislator identity is exported exactly when the legislator
    table has a row with that identity and that legislator has a vote
    record whose session is dated 2024-01-01 or later. *)
Theorem exported_iff_active st uid :
  In uid (map id (export_parlamentarios st)) <->
  exists pr vp sv,
    In pr (dim_parlamentario st) /\ In vp (votos_parlamentario st) /\
    In sv (sesiones_votacion st) /\
    pr_mp_uid pr = uid /\ vp_mp_uid vp = uid /\
    vp_sesion_votacion_id vp = sv_sesion_votacion_id sv /\
    String.leb "2024-01-01" (sv_fecha sv) = true.
Proof.
  unfold export_parlamentarios. rewrite map_map. split.
  - intros H. apply in_map_iff in H. destruct H as (row & <- & Hrow).
    apply active_rows_in, active_join_in in Hrow.
    destruct Hrow as (pr & vp & sv & d & Hpr & Hvp & Hsv & Eu & Es & Ef & _ & ->).
    exists pr, vp, sv. simpl. repeat split; auto.
  - intros (pr & vp & sv & Hpr & Hvp & Hsv & <- & Eu & Es & Ef).
    destruct (left_join_partido_nonempty st pr) as (d & Hd).
    apply in_map_iff.
    exists (pr_mp_uid pr, pr_nombre_completo pr, coalesce_partido d,
            pr_url_foto pr, pr_profesion pr).
    split; [reflexivity|].
    apply active_rows_in, active_join_in.
    exists pr, vp, sv, d. repeat split; auto.
Qed.

(** X4.  The exported legislators come in ascending order of display name:
    each name is less than or equal to the next one (text comparison). *)
Theorem parlamentarios_sorted_by_name st :
  Sorted (fun p q => String.leb (nombre p) (nombre q) = true)
         (export_parlamentarios st).
Proof.
  unfold export_parlamentarios. apply Sorted_map. rewrite active_rows_eq.
  eapply Sorted_weaken; [|apply order_by_sorted].
  - intros [[[[? ?] ?] ?] ?] [[[[? ?] ?] ?] ?] H. exact H.
  - intros [[[[? n1] ?] ?] ?] [[[[? n2] ?] ?] ?].
    unfold Sql.text_le. apply String.leb_total.
Qed.

Lemma NoDup_key_inj {A B} (f : A -> B) l x y :
  NoDup (map f l) -> In x l -> In y l -> f x = f y -> x = y.
Proof.
  induction l as [|a l IH]; simpl; [tauto|].
  intros Hnd Hx Hy E. inversion Hnd as [|? ? Hnot Hnd']; subst.
  destruct Hx as [->|Hx], Hy as [->|Hy]; auto.
  - exfalso. apply Hnot. rewrite E. now apply in_map.
  - exfalso. apply Hnot. rewrite <- E. now apply in_map.
Qed.

Lemma active_rows_NoDup st : NoDup (active_rows st).
Proof.
  rewrite active_rows_eq.
  eapply Permutation_NoDup; [apply order_by_perm | apply distinct_NoDup].
Qed.

(** X5.  When mp_uid is a key of the legislator table and partido_id a key
    of the party directory, no legislator identity is exported twice. *)
Theorem exported_ids_unique st :
  NoDup (map pr_mp_uid (dim_parlamentario st)) ->
  NoDup (map pa_partido_id (dim_partidos st)) ->
  NoDup (map id (export_parlamentarios st)).
Proof.
  intros Hmp Hpa. unfold export_parlamentarios. rewrite map_map.
  apply NoDup_map_NoDup_ForallPairs; [|apply active_rows_NoDup].
  intros r1 r2 H1 H2 E. rewrite !id_parlamentario_of in E.
  apply active_rows_in, active_join_in in H1, H2.
  destruct H1 as (pr1 & _ & _ & d1 & Hpr1 & _ & _ & _ & _ & _ & Hd1 & ->).
  destruct H2 as (pr2 & _ & _ & d2 & Hpr2 & _ & _ & _ & _ & _ & Hd2 & ->).
  simpl in E.
  assert (pr1 = pr2) by (eapply NoDup_key_inj; eassumption). subst pr2.
  apply left_join_partido_in in Hd1, Hd2.
  destruct Hd1 as [[-> Hn1]|(q1 & -> & Hq1 & Hm1)],
           Hd2 as [[-> Hn2]|(q2 & -> & Hq2 & Hm2)].
  - reflexivity.
  - exfalso. exact (Hn1 q2 Hq2 Hm2).
  - exfalso. exact (Hn2 q1 Hq1 Hm1).
  - assert (q1 = q2)
      by (eapply NoDup_key_inj; [exact Hpa | assumption | assumption | congruence]).
    subst q2. reflexivity.
Qed.

Lemma exported_ids_unique_witness :
  NoDup (map pr_mp_uid (dim_parlamentario demo_store)) /\
  NoDup (map pa_partido_id (dim_partidos demo_store)) /\
  NoDup (map id (export_parlamentarios demo_store)).
Proof.
  assert (H1 : NoDup (map pr_mp_uid (dim_parlamentario demo_store)))
    by (change (NoDup (nodup Z.eq_dec [1%Z; 2%Z; 3%Z])); apply NoDup_nodup).
  assert (H2 : NoDup (map pa_partido_id (dim_partidos demo_store)))
    by (change (NoDup (nodup Z.eq_dec [10%Z; 11%Z; 12%Z])); apply NoDup_nodup).
  split; [exact H1|]. split; [exact H2|].
  exact (exported_ids_unique demo_store H1 H2).
Defined.

(** X6.  Every exported legislator copies identity, name and photo from a
    row of the legislator table.  Its profession is never empty: it is the
    stored one when that is a non-empty text, and "No especificada" when it
    is null or empty.  Its party is the name of a directory record that the
    row's party reference selects, or "Independiente" when the reference
    selects no record or a record without a name. *)
Theorem parlamentario_defaults st p :
  In p (export_parlamentarios st) ->
  exists pr,
    In pr (dim_parlamentario st) /\
    id p = pr_mp_uid pr /\ nombre p = pr_nombre_completo pr /\
    foto p = pr_url_foto pr /\
    profesion p <> "" /\
    (forall s, pr_profesion pr = Some s -> s <> "" -> profesion p = s) /\
    (pr_profesion pr = None \/ pr_profesion pr = Some "" ->
     profesion p = "No especificada") /\
    ((exists r, In r (dim_partidos st) /\
                pr_partido_militante_actual_id pr = Some (pa_partido_id r) /\
                pa_nombre_partido r = Some (partido p)) \/
     (partido p = "Independiente" /\
      ((forall r, In r (dim_partidos st) ->
                  pr_partido_militante_actual_id pr <> Some (pa_partido_id r)) \/
       (exists r, In r (dim_partidos st) /\
                  pr_partido_militante_actual_id pr = Some (pa_partido_id r) /\
                  pa_nombre_partido r = None)))).
Proof.
  unfold export_parlamentarios. intros H.
  apply in_map_iff in H. destruct H as (row & <- & Hrow).
  apply active_rows_in, active_join_in in Hrow.
  destruct Hrow as (pr & _ & _ & d & Hpr & _ & _ & _ & _ & _ & Hd & ->).
  exists pr. cbn [parlamentario_of id nombre foto profesion partido].
  split; [assumption|]. do 3 (split; [reflexivity|]).
  split; [destruct (pr_profesion pr) as [[|c s]|]; discriminate|].
  split; [intros s -> Hs; destruct s; [congruence | reflexivity]|].
  split; [intros [->| ->]; reflexivity|].
  apply left_join_partido_in in Hd.
  destruct Hd as [[-> Hn]|(r & -> & Hr & Hm)].
  - right. split; [reflexivity | now left].
  - simpl. destruct (pa_nombre_partido r) as [n|] eqn:En.
    + left. exists r. auto.
    + right. split; [reflexivity|]. right. exists r. auto.
Qed.

Lemma parlamentario_defaults_witness :
  exists pr,
    In pr (dim_parlamentario demo_store) /\ 3%Z = pr_mp_uid pr /\
    "No especificada" <> "" /\
    (pr_profesion pr = None \/ pr_profesion pr = Some "" ->
     "No especificada" = "No especificada").
Proof.
  destruct (parlamentario_defaults demo_store
              (parlamentario_of demo_store
                 (3%Z, "Carla Diaz", "Independiente", None, Some ""))
              (or_intror (or_intror (or_introl eq_refl))))
    as (pr & Hpr & Hid & _ & _ & Hne & _ & Hdef & _).
  exists pr. split; [exact Hpr|]. split; [exact Hid|].
  split; [exact Hne | exact Hdef].
Defined.

(** ** The recent-vote history *)

Lemma recent_join_in st uid r :
  In r (recent_join st uid) <->
  exists vp sv b,
    In vp (votos_parlamentario st) /\ In sv (sesiones_votacion st) /\
    In b (bills st) /\
    vp_mp_uid vp = uid /\
    vp_sesion_votacion_id vp = sv_sesion_votacion_id sv /\
    sv_bill_id sv = br_bill_id b /\
    r = (br_bill_id b, br_titulo b, vp_voto vp, sv_fecha sv).
Proof.
  unfold recent_join. split.
  - intros H. apply in_flat_map in H. destruct H as (vp & Hvp & H).
    destruct (Z.eqb_spec (vp_mp_uid vp) uid) as [Eu|]; [|contradiction].
    apply in_flat_map in H. destruct H as (sv & Hsv & H).
    destruct (Z.eqb_spec (vp_sesion_votacion_id vp) (sv_sesion_votacion_id sv))
      as [Es|]; [|contradiction].
    apply in_flat_map in H. destruct H as (b & Hb & H).
    destruct (String.eqb_spec (sv_bill_id sv) (br_bill_id b)) as [Eb|];
      [|contradiction].
    destruct H as [<-|[]]. exists vp, sv, b. repeat split; assumption.
  - intros (vp & sv & b & Hvp & Hsv & Hb & Eu & Es & Eb & ->).
    apply in_flat_map. exists vp. split; [assumption|].
    rewrite (proj2 (Z.eqb_eq _ _) Eu).
    apply in_flat_map. exists sv. split; [assumption|].
    rewrite (proj2 (Z.eqb_eq _ _) Es).
    apply in_flat_map. exists b. split; [assumption|].
    rewrite (proj2 (String.eqb_eq _ _) Eb). now left.
Qed.

(** X7.  The recent-vote history of an exported legislator has as many
    entries as the legislator has vote records joined to a session and a
    bill of the store, up to 20.  Every entry comes from such a joined
    record of that legislator: it carries the bill's identity, the vote
    label in lower case and the session's date.  When there are at most 20
    joined records, every one of them has its entry. *)
Theorem recent_votes_are_own st p :
  In p (export_parlamentarios st) ->
  List.length (votaciones_recientes p) =
    Nat.min 20 (List.length (recent_join st (id p))) /\
  (forall e, In e (votaciones_recientes p) ->
     exists vp sv b,
       In vp (votos_parlamentario st) /\ In sv (sesiones_votacion st) /\
       In b (bills st) /\
       vp_mp_uid vp = id p /\
       vp_sesion_votacion_id vp = sv_sesion_votacion_id sv /\
       sv_bill_id sv = br_bill_id b /\
       vr_bill_id e = br_bill_id b /\
       vr_voto e = Py.lower (vp_voto vp) /\
       vr_fecha e = sv_fecha sv) /\
  (List.length (recent_join st (id p)) <= 20 ->
   forall vp sv b,
     In vp (votos_parlamentario st) -> In sv (sesiones_votacion st) ->
     In b (bills st) ->
     vp_mp_uid vp = id p ->
     vp_sesion_votacion_id vp = sv_sesion_votacion_id sv ->
     sv_bill_id sv = br_bill_id b ->
     In {| vr_bill_id := br_bill_id b;
           vr_titulo := truncate_titulo (br_titulo b);
           vr_voto := Py.lower (vp_voto vp);
           vr_fecha := sv_fecha sv |}
        (votaciones_recientes p)).
Proof.
  intros Hp. destruct (export_parlamentarios_fields st p Hp) as [_ ->].
  rewrite recent_rows_eq. unfold Sql.limit.
  set (sorted := Sql.order_by _ (recent_join st (id p))).
  assert (Hlen : List.length sorted = List.length (recent_join st (id p)))
    by (symmetry; apply Permutation_length, order_by_perm).
  split; [|split].
  - now rewrite length_map, length_firstn, Hlen.
  - intros e He. apply in_map_iff in He. destruct He as (r & <- & Hr).
    apply In_firstn in Hr. apply order_by_In in Hr.
    apply recent_join_in in Hr.
    destruct Hr as (vp & sv & b & Hvp & Hsv & Hb & Eu & Es & Eb & ->).
    exists vp, sv, b. simpl. repeat split; assumption.
  - intros Hle vp sv b Hvp Hsv Hb Eu Es Eb.
    rewrite firstn_all2 by lia.
    apply in_map_iff.
    exists (br_bill_id b, br_titulo b, vp_voto vp, sv_fecha sv).
    split; [reflexivity|]. apply order_by_In. apply recent_join_in.
    exists vp, sv, b. repeat split; assumption.
Qed.

Lemma recent_votes_are_own_witness :
  List.length
    (votaciones_recientes
       (parlamentario_of busy_store
          (7%Z, "Dora Paz", "Independiente", None, None))) =
  Nat.min 20 (List.length (recent_join busy_store 7%Z)) /\
  List.length (recent_join busy_store 7%Z) = 25.
Proof.
  split; [|reflexivity].
  exact (proj1 (recent_votes_are_own busy_store
                  (parlamentario_of busy_store
                     (7%Z, "Dora Paz", "Independiente", None, None))
                  (or_introl eq_refl))).
Defined.

(** X8.  Every bill referenced by the recent-vote history of an exported
    legislator is in the bill export of the same store. *)
Theorem recent_votes_reference_exported_bills st p e :
  In p (export_parlamentarios st) ->
  In e (votaciones_recientes p) ->
  exists bs b,
    export_bills st = Py.Ok bs /\ In b bs /\ b_id b = vr_bill_id e.
Proof.
  intros Hp He.
  destruct (export_parlamentarios_fields st p Hp) as [_ Hv].
  rewrite Hv in He. apply in_map_iff in He. destruct He as (r & <- & Hr).
  destruct (recent_rows_bill st _ r Hr) as (row & voto & fecha & Hrow & ->).
  destruct (export_bills_rows st) as (bs & Hok & _ & Hids & _).
  assert (Hin : In (br_bill_id row) (map b_id bs))
    by (apply Hids; now apply in_map).
  apply in_map_iff in Hin. destruct Hin as (b & Hb & Hbin).
  exists bs, b. simpl. auto.
Qed.

Lemma recent_votes_reference_exported_bills_witness :
  exists bs b,
    export_bills demo_store = Py.Ok bs /\ In b bs /\ b_id b = "1003-04".
Proof.
  apply (recent_votes_reference_exported_bills demo_store
           (parlamentario_of demo_store
              (1%Z, "Ana Rojas", "Partido A", Some "ana.jpg", Some "Abogada"))
           (votacion_reciente ("1003-04", "Reforma", "a favor", "2023-11-30"))).
  - left. reflexivity.
  - vm_compute. do 4 right. left. reflexivity.
Defined.

(** ** The bill export: order, defaults, repeated identities *)

Section FoldSetOrder.
Context {K V R : Type} (K_dec : forall x y : K, {x = y} + {x <> y}).
Variables (key : R -> K) (val : R -> V).

Local Abbreviation fill rows d :=
  (fold_left (fun acc r => Py.set K_dec (key r) (val r) acc) rows d).

Lemma fold_set_fresh rows : forall (d : @Py.dict K V),
  NoDup (Py.keys d ++ map key rows) ->
  fill rows d = d ++ map (fun r => (key r, val r)) rows.
Proof.
  induction rows as [|r rows IH]; intros d Hnd; simpl.
  - now rewrite app_nil_r.
  - simpl in Hnd. pose proof (NoDup_remove _ _ _ Hnd) as [Hnd' Hnot].
    rewrite set_fresh by (intros Hin; apply Hnot; apply in_or_app; now left).
    rewrite IH.
    + now rewrite <- app_assoc.
    + unfold Py.keys. rewrite map_app. simpl. rewrite <- app_assoc. exact Hnd.
Qed.

Lemma in_set_other (d : @Py.dict K V) k v k' v' :
  NoDup (Py.keys d) ->
  In (k', v') (Py.set K_dec k v d) ->
  (k', v') = (k, v) \/ (k' <> k /\ In (k', v') d).
Proof.
  induction d as [|[k0 v0] d IH]; simpl; intros Hnd.
  - intros [E|[]]. left. congruence.
  - inversion Hnd as [|? ? Hnot Hnd']; subst.
    destruct (K_dec k k0) as [->|Hne]; simpl.
    + intros [E|H]; [left; congruence|].
      right. split; [|now right].
      intros ->. apply Hnot. change k0 with (fst (k0, v')). now apply in_map.
    + intros [E|H].
      * inversion E; subst. right. split; [congruence | now left].
      * destruct (IH Hnd' H) as [E|[Hk Hin]]; [now left|].
        right. split; [assumption | now right].
Qed.

Lemma fold_set_snoc rows r (d : @Py.dict K V) :
  fill (rows ++ [r]) d = Py.set K_dec (key r) (val r) (fill rows d).
Proof. now rewrite fold_left_app. Qed.

(** The entry of a key holds the value of the last row that carries it. *)
Lemma fold_set_last rows : forall k v,
  In (k, v) (fill rows (@nil (K * V))) ->
  exists pre r post,
    rows = pre ++ r :: post /\ key r = k /\ val r = v /\
    forall r', In r' post -> key r' <> k.
Proof.
  induction rows as [|r rows IH] using rev_ind; intros k v H.
  - contradiction.
  - rewrite fold_set_snoc in H.
    apply in_set_other in H; [|apply fold_set_NoDup; constructor].
    destruct H as [E|[Hne Hin]].
    + inversion E; subst. exists rows, r, []. repeat split; auto.
    + destruct (IH k v Hin) as (pre & r0 & post & -> & Hk & Hv & Hpost).
      exists pre, r0, (post ++ [r]). rewrite <- app_assoc.
      repeat split; auto.
      intros r' Hr'. apply in_app_or in Hr'.
      destruct Hr' as [Hr'|[<-|[]]]; [now apply Hpost | congruence].
Qed.
End FoldSetOrder.

Lemma export_bills_keyed st :
  NoDup (map br_bill_id (bills st)) ->
  export_bills st =
  Py.Ok (map (fun row => extend_materias (bill_of_row row)
                           (materias_of st (br_bill_id row)))
             (bill_rows st)).
Proof.
  intros Hnd. rewrite export_bills_eq. f_equal.
  unfold bills_dict0.
  rewrite fold_set_fresh.
  - unfold Py.values, attach_all. simpl. rewrite !map_map. reflexivity.
  - simpl. eapply Permutation_NoDup; [|exact Hnd].
    apply Permutation_map. unfold bill_rows. apply order_by_perm.
Qed.

(** X9.  When bill_id is a key of the bills table, the export has exactly
    one bill per row, in descending order of filing date: each bill's date
    is greater than or equal to the next one's. *)
Theorem bills_in_filing_order st :
  NoDup (map br_bill_id (bills st)) ->
  exists bs,
    export_bills st = Py.Ok bs /\
    List.length bs = List.length (bills st) /\
    Permutation (map bill_core bs) (map bill_of_row (bills st)) /\
    Sorted (fun a b => String.leb (b_fecha b) (b_fecha a) = true) bs.
Proof.
  intros Hnd. eexists. split; [now apply export_bills_keyed|].
  split; [|split].
  - rewrite length_map. unfold bill_rows.
    symmetry. apply Permutation_length, order_by_perm.
  - rewrite map_map. cbn [bill_core extend_materias b_id b_titulo b_resumen
                          b_fecha estado tipo camara].
    change (Permutation (map bill_of_row (bill_rows st))
                        (map bill_of_row (bills st))).
    apply Permutation_map. symmetry. unfold bill_rows. apply order_by_perm.
  - apply Sorted_map. unfold bill_rows.
    eapply Sorted_weaken; [|apply order_by_sorted].
    + intros a b H. exact H.
    + intros a b. unfold Sql.text_ge. apply String.leb_total.
Qed.

Lemma bills_in_filing_order_witness :
  NoDup (map br_bill_id (bills demo_store)) /\
  exists bs,
    export_bills demo_store = Py.Ok bs /\
    List.length bs = 3 /\
    Permutation (map bill_core bs) (map bill_of_row (bills demo_store)) /\
    Sorted (fun a b => String.leb (b_fecha b) (b_fecha a) = true) bs.
Proof.
  assert (H : NoDup (map br_bill_id (bills demo_store)))
    by (change (NoDup (nodup string_dec ["1001-07"; "1002-11"; "1003-04"]));
        apply NoDup_nodup).
  split; [exact H | exact (bills_in_filing_order demo_store H)].
Defined.

(** Without the key the order can break: the bill filed twice keeps the
    place of its newer filing and shows the date of the older one. *)
Example bills_order_needs_key :
  option_map (map (fun b => (b_id b, b_fecha b)))
    (match export_bills refiled_store with
     | Py.Ok bs => Some bs
     | Py.Raise _ => None
     end) =
  Some [("2001-06", "2020-01-10"); ("2002-13", "2023-08-01")].
Proof. reflexivity. Qed.

(** X10.  Every exported bill copies title and filing date from a row of
    the bills table.  Its summary is the stored one when that is a
    non-empty text and the title when it is null or empty; its type is the
    stored initiative when that is a non-empty text and "Mocion" when it is
    null or empty. *)
Theorem bill_defaults st :
  exists bs,
    export_bills st = Py.Ok bs /\
    forall b, In b bs ->
      exists row,
        In row (bills st) /\ b_id b = br_bill_id row /\
        b_titulo b = br_titulo row /\ b_fecha b = br_fecha_ingreso row /\
        (forall s, br_resumen row = Some s -> s <> "" -> b_resumen b = s) /\
        (br_resumen row = None \/ br_resumen row = Some "" ->
         b_resumen b = br_titulo row) /\
        (forall s, br_iniciativa row = Some s -> s <> "" -> tipo b = s) /\
        (br_iniciativa row = None \/ br_iniciativa row = Some "" ->
         tipo b = "Mocion").
Proof.
  destruct (export_bills_rows st) as (bs & Hok & _ & _ & Hrows).
  exists bs. split; [assumption|].
  intros b Hb. destruct (Hrows b Hb) as (row & Hrow & Hcore & _).
  exists row. split; [assumption|].
  assert (Hf : b_id b = b_id (bill_of_row row) /\
               b_titulo b = b_titulo (bill_of_row row) /\
               b_fecha b = b_fecha (bill_of_row row) /\
               b_resumen b = b_resumen (bill_of_row row) /\
               tipo b = tipo (bill_of_row row))
    by (rewrite <- Hcore; repeat split; reflexivity).
  destruct Hf as (-> & -> & -> & -> & ->).
  cbn [bill_of_row b_id b_titulo b_fecha b_resumen tipo].
  do 3 (split; [reflexivity|]).
  split; [intros s -> Hs; destruct s; [congruence | reflexivity]|].
  split; [intros [->| ->]; reflexivity|].
  split; [intros s -> Hs; destruct s; [congruence | reflexivity]|].
  intros [->| ->]; reflexivity.
Qed.

(** X11.  For every row of the bills table the export has exactly one bill
    with the row's bill_id, also when several rows carry that bill_id; that
    bill is built from the last of those rows in descending order of filing
    date. *)
Theorem repeated_bill_id_last_row_wins st :
  exists bs,
    export_bills st = Py.Ok bs /\
    forall row0, In row0 (bills st) ->
      exists b,
        In b bs /\ b_id b = br_bill_id row0 /\
        (forall b', In b' bs -> b_id b' = br_bill_id row0 -> b' = b) /\
        exists pre row post,
          bill_rows st = pre ++ row :: post /\
          br_bill_id row = br_bill_id row0 /\
          bill_core b = bill_of_row row /\
          forall r, In r post -> br_bill_id r <> br_bill_id row0.
Proof.
  destruct (export_bills_rows st) as (bs & Hok & Hnd & Hids & _).
  exists bs. split; [exact Hok|].
  intros row0 Hrow0.
  assert (Hin : In (br_bill_id row0) (map b_id bs))
    by (apply Hids; now apply in_map).
  apply in_map_iff in Hin. destruct Hin as (b & Hid & Hb).
  exists b. split; [exact Hb|]. split; [exact Hid|]. split.
  - intros b' Hb' Hid'.
    eapply NoDup_key_inj; [exact Hnd | assumption | assumption | congruence].
  - rewrite export_bills_eq in Hok. injection Hok as <-.
    unfold Py.values, attach_all in Hb.
    rewrite map_map in Hb. apply in_map_iff in Hb.
    destruct Hb as ([k v] & <- & Hkv). simpl in Hid |- *.
    unfold bills_dict0 in Hkv. apply fold_set_last in Hkv.
    destruct Hkv as (pre & row & post & Hrows & Hk & Hv & Hpost).
    subst k v. simpl in Hid.
    exists pre, row, post. rewrite <- Hid.
    repeat split; assumption.
Qed.

Example repeated_bill_id_demo :
  option_map (map (fun b => (b_id b, b_titulo b, estado b)))
    (match export_bills refiled_store with
     | Py.Ok bs => Some bs
     | Py.Raise _ => None
     end) =
  Some [("2001-06", "Texto original", "Archivado");
        ("2002-13", "Otra ley", "En tramitacion")].
Proof. reflexivity. Qed.

(** ** The subject-tag list of the metadata *)

Lemma string_compare_trans_le s1 : forall s2 s3,
  String.compare s1 s2 <> Gt -> String.compare s2 s3 <> Gt ->
  String.compare s1 s3 <> Gt.
Proof.
  induction s1 as [|c1 s1 IH]; intros [|c2 s2] [|c3 s3]; simpl;
    try congruence.
  unfold Ascii.compare.
  destruct (N.compare_spec (N_of_ascii c1) (N_of_ascii c2)) as [E12|L12|G12];
    destruct (N.compare_spec (N_of_ascii c2) (N_of_ascii c3)) as [E23|L23|G23];
    destruct (N.compare_spec (N_of_ascii c1) (N_of_ascii c3)) as [E13|L13|G13];
    try congruence; try lia.
  apply IH.
Qed.

Lemma string_leb_trans s1 s2 s3 :
  String.leb s1 s2 = true -> String.leb s2 s3 = true -> String.leb s1 s3 = true.
Proof.
  unfold String.leb. intros H12 H23.
  pose proof (string_compare_trans_le s1 s2 s3) as H.
  destruct (String.compare s1 s2); try discriminate;
    destruct (String.compare s2 s3); try discriminate;
    destruct (String.compare s1 s3); try reflexivity;
    exfalso; apply H; congruence.
Qed.

Lemma StronglySorted_app_le {A} (R : A -> A -> Prop) l1 : forall l2,
  StronglySorted R (l1 ++ l2) ->
  forall x y, In x l1 -> In y l2 -> R x y.
Proof.
  induction l1 as [|a l1 IH]; intros l2 Hs x y Hx Hy; [contradiction|].
  simpl in Hs. inversion Hs as [|? ? Hs' Hall]; subst.
  destruct Hx as [->|Hx].
  - rewrite Forall_forall in Hall. apply Hall. apply in_or_app. now right.
  - eapply IH; eassumption.
Qed.

Lemma materia_names_sorted st :
  Sorted (fun a b => String.leb a b = true) (materia_names st).
Proof.
  unfold materia_names. apply order_by_sorted.
  intros x y. unfold Sql.text_le. apply String.leb_total.
Qed.

Lemma materia_names_NoDup st : NoDup (materia_names st).
Proof.
  unfold materia_names.
  eapply Permutation_NoDup; [apply order_by_perm | apply distinct_NoDup].
Qed.

Lemma materia_names_in st x :
  In x (materia_names st) <-> In x (map ma_nombre (dim_materias st)).
Proof. unfold materia_names. now rewrite order_by_In, distinct_In. Qed.

(** X12.  The subject-tag list of the metadata has at most 100 names, all
    of them names of the subject-tag table, without repetition and in
    ascending order.  When the table has at most 100 distinct names the list
    has them all; otherwise it keeps the first 100 in that order: every
    name left out is greater than or equal to every name kept. *)
Theorem metadata_materias st ps bills_ :
  exists md,
    export_metadata st ps bills_ = Py.Ok md /\
    List.length (md_materias md) <= 100 /\
    NoDup (md_materias md) /\
    Sorted (fun a b => String.leb a b = true) (md_materias md) /\
    (forall x, In x (md_materias md) ->
               In x (map ma_nombre (dim_materias st))) /\
    (List.length (Sql.distinct string_dec (map ma_nombre (dim_materias st)))
       <= 100 ->
     forall x, In x (map ma_nombre (dim_materias st)) ->
               In x (md_materias md)) /\
    (forall x y, In x (md_materias md) ->
                 In y (map ma_nombre (dim_materias st)) ->
                 ~ In y (md_materias md) ->
                 String.leb x y = true).
Proof.
  unfold export_metadata.
  destruct (count_member_loop ps (party_stats0 st)) as (d' & Hok & _).
  rewrite Hok. cbn [Py.bind]. eexists. split; [reflexivity|].
  cbn [md_materias].
  pose proof (firstn_skipn 100 (materia_names st)) as Hsplit.
  split; [apply firstn_le_length|].
  split.
  { pose proof (materia_names_NoDup st) as Hnd. rewrite <- Hsplit in Hnd.
    now apply NoDup_app_remove_r in Hnd. }
  split; [apply Sorted_firstn, materia_names_sorted|].
  split; [intros x Hx; apply materia_names_in; now apply In_firstn in Hx|].
  split.
  { intros Hle x Hx. rewrite firstn_all2; [now apply materia_names_in|].
    unfold materia_names.
    rewrite <- (Permutation_length (order_by_perm Sql.text_le _)). exact Hle. }
  intros x y Hx Hy Hny.
  assert (Hss : StronglySorted (fun a b => String.leb a b = true)
                  (firstn 100 (materia_names st) ++
                   skipn 100 (materia_names st))).
  { rewrite Hsplit. apply Sorted_StronglySorted; [|apply materia_names_sorted].
    intros a b c. apply string_leb_trans. }
  apply (StronglySorted_app_le _ _ _ Hss x y Hx).
  apply materia_names_in in Hy. rewrite <- Hsplit in Hy.
  apply in_app_or in Hy. destruct Hy as [Hy|Hy]; [contradiction | exact Hy].
Qed.

(** With 120 distinct names in the table the list stops at 100. *)
Example metadata_materias_cap_reached :
  option_map (fun md => List.length (md_materias md))
    (match export_metadata many_materias_store [] [] with
     | Py.Ok md => Some md
     | Py.Raise _ => None
     end) = Some 100.
Proof. vm_compute. reflexivity. Qed.

(** ** Party member counts *)

Lemma total_miembros_set_present d k v e :
  Py.get party_key_dec k d = Some e ->
  total_miembros (Py.set party_key_dec k v d) + miembros e =
  total_miembros d + miembros v.
Proof.
  unfold total_miembros, list_sum.
  induction d as [|[k0 v0] d IH]; cbn [Py.get Py.set]; [discriminate|].
  destruct (party_key_dec k k0) as [->|Hne]; intros H.
  - inversion H; subst. cbn [map fold_right snd]. lia.
  - specialize (IH H). cbn [map fold_right snd] in *. lia.
Qed.

Lemma total_miembros_set_absent d k v :
  Py.get party_key_dec k d = None ->
  total_miembros (Py.set party_key_dec k v d) = total_miembros d + miembros v.
Proof.
  unfold total_miembros, list_sum.
  induction d as [|[k0 v0] d IH]; cbn [Py.get Py.set].
  - intros _. cbn [map fold_right snd]. lia.
  - destruct (party_key_dec k k0) as [->|Hne]; [discriminate|].
    intros H. specialize (IH H). cbn [map fold_right snd] in *. lia.
Qed.

Lemma count_member_loop_total ps : forall d,
  exists d',
    Py.for_each count_member ps d = Py.Ok d' /\
    total_miembros d' = total_miembros d + List.length ps /\
    (NoDup (Py.keys d) -> NoDup (Py.keys d')).
Proof.
  induction ps as [|p ps IH]; intros d.
  - exists d. split; [reflexivity|].
    split; [cbn [List.length]; lia | auto].
  - cbn [Py.for_each]. unfold count_member at 1, Py.mem, Py.getitem.
    destruct (Py.get party_key_dec (Some (partido p)) d) as [e|] eqn:Hg;
      cbn [Py.bind];
      match goal with
      | |- context [Py.for_each count_member ps ?d1] =>
          destruct (IH d1) as (d' & Hok & Htot & Hnd)
      end;
      exists d'; (split; [exact Hok|]); split.
    + pose proof (total_miembros_set_present d _
                    {| sigla := sigla e; miembros := miembros e + 1;
                       cohesion := cohesion e |} e Hg) as Hs.
      cbn [miembros List.length] in *. lia.
    + intros H. apply Hnd. now apply NoDup_keys_set.
    + pose proof (total_miembros_set_absent d _
                    {| sigla := Some ""; miembros := 1;
                       cohesion := cohesion_synthetic |} Hg) as Hs.
      cbn [miembros List.length] in *. lia.
    + intros H. apply Hnd. now apply NoDup_keys_set.
Qed.

Lemma party_stats0_invariant st :
  NoDup (Py.keys (party_stats0 st)) /\ total_miembros (party_stats0 st) = 0.
Proof.
  unfold party_stats0.
  assert (H : forall items (acc : party_stats_t),
             NoDup (Py.keys acc) -> total_miembros acc = 0 ->
             let r := fold_left
                        (fun ps (item : Z * (option string * option string)) =>
                           let (_, info) := item in
                           Py.set party_key_dec (fst info)
                                  {| sigla := snd info; miembros := 0;
                                     cohesion := cohesion_directory |} ps)
                        items acc in
             NoDup (Py.keys r) /\ total_miembros r = 0).
  { induction items as [|[i [n sg]] items IH]; intros acc Hnd Hz; simpl.
    - auto.
    - apply IH; [now apply NoDup_keys_set|].
      cbn [fst snd].
      destruct (Py.get party_key_dec n acc) as [e|] eqn:Hg.
      + pose proof (total_miembros_set_present acc n
                      {| sigla := sg; miembros := 0;
                         cohesion := cohesion_directory |} e Hg) as Hs.
        cbn [miembros] in Hs. lia.
      + rewrite total_miembros_set_absent by assumption. cbn [miembros]. lia. }
  apply H; [constructor | reflexivity].
Qed.

(** X13.  In the metadata every party name has one entry, and the member
    counts of all entries add up to the number of exported legislators,
    which is also the reported total_parlamentarios. *)
Theorem party_counts_add_up st ps bills_ :
  exists md,
    export_metadata st ps bills_ = Py.Ok md /\
    NoDup (Py.keys (md_partidos md)) /\
    total_miembros (md_partidos md) = List.length ps /\
    total_miembros (md_partidos md) = total_parlamentarios (md_stats md) /\
    total_bills (md_stats md) = List.length bills_.
Proof.
  unfold export_metadata.
  destruct (count_member_loop_total ps (party_stats0 st))
    as (d' & Hok & Htot & Hnd).
  destruct (party_stats0_invariant st) as [Hnd0 Hz].
  rewrite Hok. cbn [Py.bind]. eexists. split; [reflexivity|].
  cbn [md_partidos md_stats total_parlamentarios total_bills].
  split; [now apply Hnd|].
  split; [lia|]. split; [lia | reflexivity].
Qed.

(** ** How a run ends *)

Lemma export_embeddings_cases json_loads st :
  (exists embeddings meta,
      export_embeddings json_loads st = Py.Ok (embeddings, meta) /\
      Forall (fun row => json_loads (em_embedding row) <> None)
             (bill_embeddings st)) \/
  (export_embeddings json_loads st = Py.Raise Py.JSONDecodeError /\
   Exists (fun row => json_loads (em_embedding row) = None)
          (bill_embeddings st)).
Proof.
  unfold export_embeddings.
  destruct (Py.map_m (embedding_of_row json_loads) (bill_embeddings st))
    as [embs|e] eqn:Hm; cbn [Py.bind].
  - left. do 2 eexists. split; [reflexivity|].
    apply map_m_ok in Hm. induction Hm as [|row e rows embs Hrow _ IH];
      constructor; [|assumption].
    apply embedding_of_row_ok in Hrow. destruct Hrow as [_ ->]. discriminate.
  - right. apply map_m_raise in Hm. destruct Hm as (row & Hin & Hrow).
    apply embedding_of_row_raise in Hrow. destruct Hrow as [-> Hnone].
    split; [reflexivity|]. apply Exists_exists. exists row. auto.
Qed.

Lemma parse_all_or_some_fails (json_loads : string -> option Json) rows :
  Forall (fun row : EmbeddingRow => json_loads (em_embedding row) <> None) rows ->
  Exists (fun row => json_loads (em_embedding row) = None) rows -> False.
Proof.
  intros Hall Hex. apply Exists_exists in Hex. destruct Hex as (row & Hin & Hn).
  rewrite Forall_forall in Hall. exact (Hall row Hin Hn).
Qed.

Lemma export_metadata_ok st ps bills_ :
  exists md, export_metadata st ps bills_ = Py.Ok md.
Proof.
  unfold export_metadata.
  destruct (count_member_loop ps (party_stats0 st)) as (d' & Hok & _).
  rewrite Hok. cbn [Py.bind]. eauto.
Qed.

(** X15.  When a stored embedding payload does not parse, the run has
    already written the legislator file and the bill file, with the dumps of
    the two exports, and leaves the embedding file and the metadata file as
    they were before the run. *)
Theorem main_partial_failure json_loads json_dumps w :
  Exists (fun row => json_loads (em_embedding row) = None)
         (bill_embeddings (store w)) ->
  read_file "diputados.json" (fst (main json_loads json_dumps w)) =
    Some (json_dumps (Some 2)
            (JArr (map json_of_parlamentario
                       (export_parlamentarios (store w))))) /\
  (exists bs,
      export_bills (store w) = Py.Ok bs /\
      read_file "bills.json" (fst (main json_loads json_dumps w)) =
        Some (json_dumps (Some 2) (JArr (map json_of_bill bs)))) /\
  read_file "embeddings.json" (fst (main json_loads json_dumps w)) =
    read_file "embeddings.json" w /\
  read_file "metadata.json" (fst (main json_loads json_dumps w)) =
    read_file "metadata.json" w.
Proof.
  intros Hex. unfold main. rewrite export_bills_eq.
  destruct (export_embeddings_cases json_loads (store w))
    as [(embs & meta & _ & Hall)|[-> _]];
    [exfalso; eapply parse_all_or_some_fails; eassumption|].
  unfold read_file, write_file. cbn [fst files].
  split; [now dict_lookup|].
  split; [eexists; split; [reflexivity | now dict_lookup]|].
  split; now dict_lookup.
Qed.

Lemma main_partial_failure_witness :
  Exists (fun row => demo_loads (em_embedding row) = None)
         (bill_embeddings broken_store) /\
  read_file "bills.json"
    (fst (main demo_loads demo_dumps
            {| store := broken_store;
               files := [("embeddings.json", "previous run")];
               clock := 0; hash_seed := 0 |})) = Some "indented array" /\
  read_file "embeddings.json"
    (fst (main demo_loads demo_dumps
            {| store := broken_store;
               files := [("embeddings.json", "previous run")];
               clock := 0; hash_seed := 0 |})) = Some "previous run" /\
  read_file "metadata.json"
    (fst (main demo_loads demo_dumps
            {| store := broken_store;
               files := [("embeddings.json", "previous run")];
               clock := 0; hash_seed := 0 |})) = None.
Proof.
  assert (Hex : Exists (fun row => demo_loads (em_embedding row) = None)
                       (bill_embeddings broken_store))
    by (apply Exists_cons_tl, Exists_cons_tl, Exists_cons_hd; reflexivity).
  split; [exact Hex|].
  destruct (main_partial_failure demo_loads demo_dumps
              {| store := broken_store;
                 files := [("embeddings.json", "previous run")];
                 clock := 0; hash_seed := 0 |} Hex)
    as (_ & (bs & _ & Hb) & He & Hm).
  split; [reflexivity|]. split; [exact He | exact Hm].
Defined.

(** X16.  A run, whether it completes or stops, changes no file other than
    the four output files. *)
Theorem main_leaves_other_files json_loads json_dumps w path :
  ~ In path output_files ->
  read_file path (fst (main json_loads json_dumps w)) = read_file path w.
Proof.
  intros Hn. unfold output_files in Hn. simpl in Hn.
  assert (H1 : "diputados.json" <> path) by tauto.
  assert (H2 : "bills.json" <> path) by tauto.
  assert (H3 : "embeddings.json" <> path) by tauto.
  assert (H4 : "metadata.json" <> path) by tauto.
  unfold main.
  destruct (export_bills (store w));
    [destruct (export_embeddings json_loads (store w)) as [[? ?]|];
     [destruct (export_metadata (store w) _ _)|]|];
    unfold read_file, write_file; cbn [fst files];
    repeat rewrite get_set_neq by assumption; reflexivity.
Qed.

Lemma main_leaves_other_files_witness :
  ~ In "notes.txt" output_files /\
  read_file "notes.txt"
    (fst (main demo_loads demo_dumps
            (demo_world [("bills.json", "stale"); ("notes.txt", "keep")]
                        1700 42))) = Some "keep".
Proof.
  assert (Hn : ~ In "notes.txt" output_files)
    by (intros [H|[H|[H|[H|[]]]]]; discriminate H).
  split; [exact Hn|].
  exact (main_leaves_other_files demo_loads demo_dumps
           (demo_world [("bills.json", "stale"); ("notes.txt", "keep")] 1700 42)
           "notes.txt" Hn).
Defined.

(** ** When the tallies are exact *)

Lemma tally_counts_one_label_aux st p c :
  In p (export_parlamentarios st) ->
  ((records_in c (votos_of st (id p)) = 0 /\
    stat c (ev_stats (estadisticas_voto p)) = 0) \/
   (exists l, In l (votos_of st (id p)) /\ in_category c l = true /\
              stat c (ev_stats (estadisticas_voto p)) =
              count_occ string_dec (votos_of st (id p)) l)) /\
  stat c (ev_stats (estadisticas_voto p)) <=
  records_in c (votos_of st (id p)).
Proof.
  intros Hp. destruct (export_parlamentarios_fields st p Hp) as [-> _].
  unfold vote_stats. cbn [ev_stats].
  set (votos := votos_of st (id p)).
  assert (Hone :
            (records_in c votos = 0 /\
             stat c (tally (group_by_voto votos)) = 0) \/
            (exists l, In l votos /\ in_category c l = true /\
                       stat c (tally (group_by_voto votos)) =
                       count_occ string_dec votos l)).
  { unfold tally, group_by_voto. rewrite tally_last.
    destruct (last_count c _) as [m|] eqn:E.
    - right. apply last_count_some in E. destruct E as (l & Hin & Hc & ->).
      exists l. split; [now apply (proj1 (group_by_voto_labels _ _))|].
      split; [assumption | reflexivity].
    - left. split; [|now destruct c].
      apply records_in_none. intros l Hl.
      eapply last_count_none; [exact E|].
      now apply (proj2 (group_by_voto_labels _ _)). }
  split; [exact Hone|].
  destruct Hone as [[_ ->]|(l & _ & Hc & ->)]; [lia|].
  now apply count_occ_le_records_in.
Qed.

Lemma count_two_le_records_in c votos l l' :
  l <> l' -> in_category c l = true -> in_category c l' = true ->
  count_occ string_dec votos l + count_occ string_dec votos l' <=
  records_in c votos.
Proof.
  intros Hne Hl Hl'. induction votos as [|v votos IH]; [cbv; lia|].
  rewrite records_in_cons. cbn [count_occ].
  destruct (string_dec v l) as [->|Hvl].
  - rewrite Hl. destruct (string_dec l l'); [contradiction | lia].
  - destruct (string_dec v l') as [->|Hvl'].
    + rewrite Hl'. lia.
    + destruct (in_category c v); lia.
Qed.

(** X17.  For an exported legislator, a tally equals the number of the
    legislator's vote records in its category exactly when all those
    records carry the same label; as soon as two different labels of one
    category occur, the tally is too small. *)
Theorem tally_exact_iff_one_label st p c :
  In p (export_parlamentarios st) ->
  (stat c (ev_stats (estadisticas_voto p)) =
   records_in c (votos_of st (id p)) <->
   forall l1 l2,
     In l1 (votos_of st (id p)) -> In l2 (votos_of st (id p)) ->
     in_category c l1 = true -> in_category c l2 = true -> l1 = l2) /\
  (stat c (ev_stats (estadisticas_voto p)) <>
   records_in c (votos_of st (id p)) ->
   stat c (ev_stats (estadisticas_voto p)) <
   records_in c (votos_of st (id p))).
Proof.
  intros Hp.
  destruct (tally_counts_one_label_aux st p c Hp) as [Hone Hle].
  split; [|lia].
  destruct (export_parlamentarios_fields st p Hp) as [Hst _].
  split.
  - intros Heq l1 l2 H1 H2 Hc1 Hc2.
    destruct (string_dec l1 l2) as [|Hne]; [assumption | exfalso].
    destruct Hone as [[Hz _]|(l & Hl & Hc & Hs)].
    + pose proof (count_occ_le_records_in c (votos_of st (id p)) l1 Hc1).
      pose proof (proj1 (count_occ_In string_dec _ l1) H1). lia.
    + destruct (string_dec l l1) as [->|Hl1].
      * pose proof (count_two_le_records_in c (votos_of st (id p)) l1 l2
                      Hne Hc Hc2).
        pose proof (proj1 (count_occ_In string_dec _ l2) H2). lia.
      * pose proof (count_two_le_records_in c (votos_of st (id p)) l l1
                      Hl1 Hc Hc1).
        pose proof (proj1 (count_occ_In string_dec _ l1) H1). lia.
  - intros Hu. rewrite Hst. unfold vote_stats. cbn [ev_stats].
    now apply tally_unambiguous.
Qed.

Lemma tally_exact_iff_one_label_witness :
  stat Favor
       (ev_stats (estadisticas_voto
          (parlamentario_of demo_store
             (2%Z, "Beto Soto", "Independiente", None, None)))) <
  records_in Favor (votos_of demo_store 2%Z).
Proof.
  apply (proj2 (tally_exact_iff_one_label demo_store
                  (parlamentario_of demo_store
                     (2%Z, "Beto Soto", "Independiente", None, None))
                  Favor (or_intror (or_introl eq_refl)))).
  vm_compute. discriminate.
Defined.

(** X18.  When a run completes, each of the four output files holds the
    dump of its export: the legislators, the bills and the metadata with
    two-space indentation, the embeddings without indentation; writing a
    later file never disturbs an earlier one. *)
Theorem main_writes_dumps json_loads json_dumps w :
  snd (main json_loads json_dumps w) = Py.Ok tt ->
  exists bs embeddings meta md,
    export_bills (store w) = Py.Ok bs /\
    export_embeddings json_loads (store w) = Py.Ok (embeddings, meta) /\
    export_metadata (store w) (export_parlamentarios (store w)) bs =
      Py.Ok md /\
    read_file "diputados.json" (fst (main json_loads json_dumps w)) =
      Some (json_dumps (Some 2)
              (JArr (map json_of_parlamentario
                         (export_parlamentarios (store w))))) /\
    read_file "bills.json" (fst (main json_loads json_dumps w)) =
      Some (json_dumps (Some 2) (JArr (map json_of_bill bs))) /\
    read_file "embeddings.json" (fst (main json_loads json_dumps w)) =
      Some (json_dumps None (JArr (map json_of_embedding embeddings))) /\
    read_file "metadata.json" (fst (main json_loads json_dumps w)) =
      Some (json_dumps (Some 2) (json_of_metadata md)).
Proof.
  unfold main. cbv zeta.
  destruct (export_bills (store w)) as [bs|]; [|discriminate].
  destruct (export_embeddings json_loads (store w)) as [[embs meta]|];
    [|discriminate].
  destruct (export_metadata (store w) _ bs) as [md|] eqn:Hmd; [|discriminate].
  intros _. exists bs, embs, meta, md.
  unfold read_file, write_file. cbn [fst files].
  do 2 (split; [reflexivity|]). split; [exact Hmd|].
  repeat split; now dict_lookup.
Qed.

Lemma main_writes_dumps_witness :
  snd (main demo_loads demo_dumps (demo_world [] 0 0)) = Py.Ok tt /\
  exists bs embeddings meta md,
    export_bills demo_store = Py.Ok bs /\
    export_embeddings demo_loads demo_store = Py.Ok (embeddings, meta) /\
    export_metadata demo_store (export_parlamentarios demo_store) bs =
      Py.Ok md /\
    read_file "diputados.json"
      (fst (main demo_loads demo_dumps (demo_world [] 0 0))) =
      Some (demo_dumps (Some 2)
              (JArr (map json_of_parlamentario
                         (export_parlamentarios demo_store)))) /\
    read_file "bills.json"
      (fst (main demo_loads demo_dumps (demo_world [] 0 0))) =
      Some (demo_dumps (Some 2) (JArr (map json_of_bill bs))) /\
    read_file "embeddings.json"
      (fst (main demo_loads demo_dumps (demo_world [] 0 0))) =
      Some (demo_dumps None (JArr (map json_of_embedding embeddings))) /\
    read_file "metadata.json"
      (fst (main demo_loads demo_dumps (demo_world [] 0 0))) =
      Some (demo_dumps (Some 2) (json_of_metadata md)).
Proof.
  split; [reflexivity|].
  exact (main_writes_dumps demo_loads demo_dumps (demo_world [] 0 0) eq_refl).
Defined.
